(** * arxiv-researcher: the document pipeline of [arxiv_researcher/app.py]

    A shallow embedding of [app.py]: acquisition and OCR conversion
    ([download_pdf_from_url], [nougat_ocr], [pdf_to_mmd]) over an explicit
    file system, the two streaming generators
    ([generate_individual_summary], [generate_final_summary]) as the finite
    lists of values they yield, and the event chain wired in [main].

    Python [str] values are modelled as [string] (byte strings; every
    pattern the program matches on is ASCII).  The outside world (HTTP,
    the OCR subprocess, the chat model, the markdown splitter of the
    langchain library) enters as section variables. *)

From Stdlib Require Import String Ascii List Arith Lia Bool.
From stdpp Require Import base option list gmap strings.

Open Scope string_scope.

#[local] Arguments String.append !_ _ : simpl nomatch.

(** ** Python string primitives *)

Module Py.

(** The newline character, ["\n"] in the source. *)
Definition nl : string := String "010"%char "".

(** ["".join(l)]. *)
Definition join (l : list string) : string := foldr String.append "" l.

(** [s.replace(old, new)] for a non-empty [old]: occurrences are found left
    to right and do not overlap.  [skip] counts the characters of a matched
    occurrence still to be dropped. *)
Fixpoint replace_from (old new : string) (skip : nat) (s : string) : string :=
  match s with
  | "" => ""
  | String c s' =>
      match skip with
      | S n => replace_from old new n s'
      | O =>
          if String.prefix old s
          then new +:+ replace_from old new (String.length old - 1) s'
          else String c (replace_from old new 0 s')
      end
  end.

(** [s.replace("", new)] puts [new] before every character and at the end. *)
Fixpoint intersperse_all (new s : string) : string :=
  match s with
  | "" => new
  | String c s' => new +:+ String c (intersperse_all new s')
  end.

Definition replace (s old new : string) : string :=
  match old with
  | "" => intersperse_all new s
  | _ => replace_from old new 0 s
  end.

End Py.

(** ** Math delimiters (app.py, lines 91-97) *)

(** The chain of four [replace] calls applied to the OCR text. *)
Definition switch_math_delimiters (content : string) : string :=
  Py.replace
    (Py.replace
       (Py.replace
          (Py.replace content "\(" "$")
          "\)" "$")
       "\[" "$$")
    "\]" "$$".

(** A reading of the same step in one pass over the text: a backslash
    followed by a character listed in [tbl] becomes the listed text, every
    other character is copied. *)
Fixpoint lookup_delim (b : ascii) (tbl : list (ascii * string)) : option string :=
  match tbl with
  | [] => None
  | (k, v) :: tbl' => if Ascii.eqb b k then Some v else lookup_delim b tbl'
  end.

Fixpoint one_pass (tbl : list (ascii * string)) (s : string) : string :=
  match s with
  | "" => ""
  | String a rest =>
      match rest with
      | "" => String a ""
      | String b rest' =>
          if Ascii.eqb a "\"
          then match lookup_delim b tbl with
               | Some v => v +:+ one_pass tbl rest'
               | None => String a (one_pass tbl rest)
               end
          else String a (one_pass tbl rest)
      end
  end.

Definition delimiter_table : list (ascii * string) :=
  [("("%char, "$"); (")"%char, "$"); ("["%char, "$$"); ("]"%char, "$$")].

(** The one-pass reading of the whole step. *)
Definition math_delimiters_one_pass (content : string) : string :=
  one_pass delimiter_table content.

(** Side conditions under which a further replacement commutes with a
    one-pass substitution. *)
Fixpoint no_backslash (v : string) : bool :=
  match v with
  | "" => true
  | String x v' => negb (Ascii.eqb x "\") && no_backslash v'
  end.

Definition starts_other (c : ascii) (v : string) : bool :=
  match v with
  | "" => false
  | String x _ => negb (Ascii.eqb x c)
  end.

(** A table whose entries cannot make or hide an occurrence of backslash-[c]. *)
Definition fits (c : ascii) (tbl : list (ascii * string)) : bool :=
  forallb (fun e => negb (Ascii.eqb (fst e) c) && no_backslash (snd e)
                    && starts_other c (snd e)) tbl.

(** [b] has an entry in [tbl]. *)
Definition listed (b : ascii) (tbl : list (ascii * string)) : bool :=
  match lookup_delim b tbl with
  | Some _ => true
  | None => false
  end.

(** A table whose replacement texts hold no backslash and start with a
    character that is not listed: a second pass finds nothing to rewrite in
    what a first pass wrote. *)
Definition inert (tbl : list (ascii * string)) : bool :=
  forallb (fun e => no_backslash (snd e)
                    && match snd e with
                       | "" => false
                       | String x _ => negb (listed x tbl)
                       end) tbl.

(** No replacement text is longer than the pair it replaces. *)
Definition short_values (tbl : list (ascii * string)) : bool :=
  forallb (fun e => (String.length (snd e) <=? 2)%nat) tbl.

(** ** Exceptions, results and the file system *)

Inductive exn : Type :=
  | AssertionError (msg : string)
  | FileExistsError (path : string)
  | FileNotFoundError (path : string)
  | IsADirectoryError (path : string)
  | SubprocessError (msg : string).

Inductive result (A : Type) : Type :=
  | Ok (a : A)
  | Raise (e : exn).
Arguments Ok {A} a.
Arguments Raise {A} e.

Inductive node : Type :=
  | File (content : string)
  | Dir.

(** Paths are kept as the text the program builds them from; the program
    only builds paths that [pathlib] leaves unchanged. *)
Abbreviation FS := (gmap string node).

(** Code that reads or writes files and may raise. *)
Definition M (A : Type) : Type := FS -> result (A * FS).

#[global] Instance M_ret : MRet M := fun A a fs => Ok (a, fs).
#[global] Instance M_bind : MBind M := fun A B f m fs =>
  match m fs with
  | Ok (a, fs') => f a fs'
  | Raise e => Raise e
  end.

Definition raise {A} (e : exn) : M A := fun _ => Raise e.

(** [assert cond, msg]. *)
Definition py_assert (cond : bool) (msg : string) : M unit :=
  if cond then mret tt else raise (AssertionError msg).

(** [Path.exists]. *)
Definition exists_in (fs : FS) (p : string) : bool :=
  match fs !! p with
  | Some _ => true
  | None => false
  end.

(** [Path.is_file]. *)
Definition is_file (fs : FS) (p : string) : bool :=
  match fs !! p with
  | Some (File _) => true
  | _ => false
  end.

(** The file system once [mkdir] of [p] has gone through. *)
Definition ensure_dir (p : string) (fs : FS) : FS :=
  match fs !! p with
  | None => <[p := Dir]> fs
  | Some _ => fs
  end.

Definition path_exists (p : string) : M bool :=
  fun fs => Ok (exists_in fs p, fs).

(** [Path(p).mkdir(parents=True, exist_ok=True)] for a one-component path. *)
Definition mkdir (p : string) : M unit := fun fs =>
  match fs !! p with
  | Some Dir => Ok (tt, fs)
  | Some (File _) => Raise (FileExistsError p)
  | None => Ok (tt, <[p := Dir]> fs)
  end.

Fixpoint has_slash (p : string) : bool :=
  match p with
  | "" => false
  | String c p' => Ascii.eqb c "/" || has_slash p'
  end.

(** [PurePath.name]: the text after the last slash. *)
Fixpoint path_name (p : string) : string :=
  match p with
  | "" => ""
  | String c p' =>
      if has_slash p' then path_name p'
      else if Ascii.eqb c "/" then p' else p
  end.

(** [PurePath.parent] as text: what precedes the last slash, [None] for a
    bare name (the working directory). *)
Fixpoint path_parent (p : string) : option string :=
  match p with
  | "" => None
  | String c p' =>
      if has_slash p'
      then match path_parent p' with
           | Some d => Some (String c d)
           | None => None
           end
      else if Ascii.eqb c "/" then Some "" else None
  end.

(** [name.rfind(".")]. *)
Fixpoint rfind_dot (s : string) : option nat :=
  match s with
  | "" => None
  | String c s' =>
      match rfind_dot s' with
      | Some i => Some (S i)
      | None => if Ascii.eqb c "." then Some 0 else None
      end
  end.

(** [PurePath.stem]: the name without its last suffix; a leading or a
    trailing dot does not start a suffix. *)
Definition stem (p : string) : string :=
  let name := path_name p in
  match rfind_dot name with
  | Some i =>
      if ((0 <? i) && (i <? String.length name - 1))%nat
      then String.substring 0 i name
      else name
  | None => name
  end.

(** A name without slash and without dot, as [uuid4().hex] is. *)
Definition plain_name (s : string) : bool :=
  negb (has_slash s)
  && match rfind_dot s with
     | None => true
     | Some _ => false
     end.

(** [open(p, "r").read()]. *)
Definition read_file (p : string) : M string := fun fs =>
  match fs !! p with
  | Some (File c) => Ok (c, fs)
  | Some Dir => Raise (IsADirectoryError p)
  | None => Raise (FileNotFoundError p)
  end.

(** [open(p, "wb").write(data)]: the directory of [p] has to exist. *)
Definition write_file (p data : string) : M unit := fun fs =>
  let parent_ok :=
    match path_parent p with
    | None => true
    | Some d => match fs !! d with Some Dir => true | _ => false end
    end in
  if parent_ok then
    match fs !! p with
    | Some Dir => Raise (IsADirectoryError p)
    | _ => Ok (tt, <[p := File data]> fs)
    end
  else Raise (FileNotFoundError p).

(** ** Documents of the markdown splitter *)

(** A Python [dict] with string keys and values, in insertion order. *)
Abbreviation dict := (list (string * string)).

Fixpoint dict_get (d : dict) (key : string) : option string :=
  match d with
  | [] => None
  | (k, v) :: d' => if String.eqb k key then Some v else dict_get d' key
  end.

(** [d[key]] where [key] is drawn from [d.keys()], so the lookup succeeds. *)
Definition getitem (d : dict) (key : string) : string :=
  default "" (dict_get d key).

Definition keys (d : dict) : list string := map fst d.

(** [key in d]. *)
Definition has_key (d : dict) (key : string) : bool :=
  match dict_get d key with
  | Some _ => true
  | None => false
  end.

(** A [dict] holds each key once. *)
Fixpoint unique_keys (d : dict) : bool :=
  match d with
  | [] => true
  | (k, _) :: d' => negb (has_key d' k) && unique_keys d'
  end.

(** langchain's [Document]. *)
Record Document : Type := mkDocument {
  page_content : string;
  metadata : dict
}.

(** An HTTP response as far as the program looks at it. *)
Record response : Type := mkResponse {
  status_code : nat;
  content : string
}.

(** How the first part of [pdf_to_mmd] ends: with an early [return], or by
    falling through with [file_name] set. *)
Inductive flow : Type :=
  | Return (value : string)
  | Continue (file_name : string).

(** The three event handlers of the button chain in [main]. *)
Inductive handler : Type :=
  | PdfToMmd
  | GenerateIndividualSummary
  | GenerateFinalSummary.

(** The three markdown panes. *)
Record panes : Type := mkPanes {
  parsed_output : string;
  individual_summary : string;
  final_summary : string
}.

(** What one click did. *)
Record run : Type := mkRun {
  invoked : list handler;
  sections : list Document;
  shown : panes;
  failure : option exn
}.






(** ** The Structure Splitter, as the specification describes it *)

Module Splitter.

(** Modelled from the spec: the header levels of the data model (spec 3,
    "levels 1..3"); the splitter itself belongs to the langchain library and
    its code is not part of this repository. *)
Inductive level : Type := L1 | L2 | L3.

Definition level_nat (l : level) : nat :=
  match l with L1 => 1 | L2 => 2 | L3 => 3 end.

(** The most recent header text at each level present, shallowest first. *)
Abbreviation header_path := (list (level * string)).

(** Modelled from the spec: a section (spec 3), its body kept as lines. *)
Record MdSection : Type := mkSection {
  path : header_path;
  body : list string
}.

(** Modelled from the spec: which lines are headers.  The splitter is
    [MarkdownHeaderTextSplitter] of the langchain library, whose code is not
    part of this repository; the spec (4.1, 4.3) names the three forms
    [# text], [## text] and [### text]. *)
Definition header_of_line (line : string) : option (level * string) :=
  if String.prefix "### " line then Some (L3, String.substring 4 (String.length line - 4) line)
  else if String.prefix "## " line then Some (L2, String.substring 3 (String.length line - 3) line)
  else if String.prefix "# " line then Some (L1, String.substring 2 (String.length line - 2) line)
  else None.

Definition is_header (line : string) : bool :=
  match header_of_line line with Some _ => true | None => false end.

(** The lines of a document that are not headers. *)
Definition content_lines (doc : list string) : list string :=
  List.filter (fun line => negb (is_header line)) doc.

(** Modelled from the spec: the header path after a new header of level [l]
    (spec 4.1: it "carries forward the most recent header text seen at each
    level, and clears any level deeper than a newly-seen header"; a header of
    the same level is overwritten). *)
Definition set_header (hp : header_path) (l : level) (text : string) : header_path :=
  (List.filter (fun e => (level_nat (fst e) <? level_nat l)%nat) hp ++ [(l, text)])%list.

(** Modelled from the spec: the scan over the lines (spec 4.1: "a new
    section boundary occurs at every line that is a header of level 1, 2,
    or 3; the section's body is all content until the next header").  [hp]
    is the path of the section being read and [cur] its body so far. *)
Fixpoint split_from (hp : header_path) (cur : list string) (doc : list string)
  : list MdSection :=
  match doc with
  | [] => [mkSection hp cur]
  | line :: rest =>
      match header_of_line line with
      | Some (l, text) => mkSection hp cur :: split_from (set_header hp l text) [] rest
      | None => split_from hp (cur ++ [line])%list rest
      end
  end.

(** Modelled from the spec: the Structure Splitter on a document given as
    its lines (spec 4.1: "content preceding the first header is its own
    section with an empty header path", and "input with no headers yields a
    single section spanning the whole document"): when nothing precedes the
    first header, the sections start at that header. *)
Definition split (doc : list string) : list MdSection :=
  match split_from [] [] doc with
  | mkSection _ [] :: (_ :: _) as rest => rest
  | sections => sections
  end.

(** The key under which the program's splitter configuration files a level
    (app.py, lines 133-137). *)
Definition header_key (l : level) : string :=
  match l with L1 => "Header 1" | L2 => "Header 2" | L3 => "Header 3" end.

(** [text.split("\n")]. *)
Fixpoint split_nl (text : string) : list string :=
  match text with
  | "" => [""]
  | String c text' =>
      match split_nl text' with
      | [] => [String c ""]
      | line :: lines =>
          if Ascii.eqb c "010" then "" :: line :: lines
          else String c line :: lines
      end
  end.

(** ["\n".join(lines)]. *)
Fixpoint join_nl (lines : list string) : string :=
  match lines with
  | [] => ""
  | [line] => line
  | line :: lines' => line +:+ Py.nl +:+ join_nl lines'
  end.

Definition to_document (s : MdSection) : Document :=
  {| page_content := join_nl (body s);
     metadata := map (fun e => (header_key (fst e), snd e)) (path s) |}.

(** The splitter on text, returning documents as the program consumes them. *)
Definition split_text (text : string) : list Document :=
  map to_document (split (split_nl text)).

End Splitter.

(** A header path as the splitter files it: keys among the three configured
    ones, shallowest first, each at most once. *)
Definition key_level (key : string) : option nat :=
  if String.eqb key "Header 1" then Some 1
  else if String.eqb key "Header 2" then Some 2
  else if String.eqb key "Header 3" then Some 3
  else None.

Fixpoint levels_increasing (above : nat) (ks : list string) : bool :=
  match ks with
  | [] => true
  | k :: ks' =>
      match key_level k with
      | Some n => (above <? n)%nat && levels_increasing n ks'
      | None => false
      end
  end.

Definition header_path_ok (md : dict) : bool := levels_increasing 0 (keys md).

(** The same order on bare levels. *)
Fixpoint increasing (above : nat) (ns : list nat) : bool :=
  match ns with
  | [] => true
  | n :: ns' => (above <? n)%nat && increasing n ns'
  end.

(** The last entry of [md], in insertion order, whose key is one of the
    three configured ones: its level and its text. *)
Fixpoint last_configured (md : dict) : option (nat * string) :=
  match md with
  | [] => None
  | (k, v) :: md' =>
      match last_configured md' with
      | Some r => Some r
      | None =>
          match key_level k with
          | Some n => Some (n, v)
          | None => None
          end
      end
  end.

(** The markdown marker of a level. *)
Definition marker (n : nat) : string :=
  match n with
  | 1 => "#"
  | 2 => "##"
  | _ => "###"
  end.

(** ** Sample worlds used to run the program *)

Module Demo.

(** A chat model that answers each section with a bullet in two chunks. *)
Definition bullets (headers page_content : string) : list string :=
  ["* "; page_content].

(** A chat model whose stream opens and closes with an empty chunk. *)
Definition padded (docs : string) : list string :=
  [""; "Summary."; ""].


Definition dumps (md : dict) : string :=
  "{" +:+ Py.join (map (fun e => fst e +:+ ": " +:+ snd e +:+ ";") md) +:+ "}".

Definition hex : string := "0123456789abcdef0123456789abcdef".

Definition link : string := "https://arxiv.org/pdf/2308.11417.pdf".

Definition ok_response (url : string) : response :=
  {| status_code := 200; content := "%PDF-1.5" |}.


(** An OCR run that writes the markup of the paper it is given. *)
Definition ocr_writes (cmd : list string) : M unit := fun fs =>
  match cmd !! 4 with
  | Some file_path =>
      Ok (tt, <["output/" +:+ stem file_path +:+ ".mmd" := File ("# Title" +:+ Py.nl +:+ "Energy \(E\)")]> fs)
  | None => Ok (tt, fs)
  end.

(** An OCR run that leaves no output behind. *)
Definition ocr_silent (cmd : list string) : M unit := fun fs => Ok (tt, fs).

(** An OCR run that cannot start. *)
Definition ocr_missing (cmd : list string) : M unit :=
  raise (SubprocessError "nougat: command not found").

Definition empty_fs : FS := ∅.

Definition upload_fs : FS := {[ "/tmp/gradio/paper.pdf" := File "%PDF-1.5" ]}.

Definition start_panes : panes :=
  {| parsed_output := "OCR Output";
     individual_summary := "Individual Summary, wait for OCR to be done...";
     final_summary :=
       "Overall Summary, wait for all individual summaries to be generated..." |}.

Definition paper : string :=
  "preface" +:+ Py.nl +:+ "# A" +:+ Py.nl +:+ "alpha" +:+ Py.nl +:+ "## B" +:+ Py.nl +:+ "beta".

(** The three documents the splitter makes of [paper]. *)
Definition preface_doc : Document :=
  {| page_content := "preface"; metadata := [] |}.
Definition a_doc : Document :=
  {| page_content := "alpha"; metadata := [("Header 1", "A")] |}.
Definition b_doc : Document :=
  {| page_content := "beta"; metadata := [("Header 1", "A"); ("Header 2", "B")] |}.

Definition folders : FS := <["output" := Dir]> (<["input" := Dir]> ∅).

Definition pdf_path : string :=
  "input/downloaded_paper_0123456789abcdef0123456789abcdef.pdf".

Definition mmd_path : string :=
  "output/downloaded_paper_0123456789abcdef0123456789abcdef.mmd".

(** The file system after a download that went through. *)
Definition downloaded : FS := <[pdf_path := File "%PDF-1.5"]> folders.

(** The file system after the OCR run [ocr_writes]. *)
Definition converted : FS :=
  <[mmd_path := File ("# Title" +:+ Py.nl +:+ "Energy \(E\)")]> downloaded.

(** A file system in which the name [input] is taken by a regular file. *)
Definition taken : FS := {[ "input" := File "notes" ]}.

(** Metadata that lists a deeper level before a shallower one. *)
Definition reversed_md : dict := [("Header 2", "B"); ("Header 1", "A")].

(** The markup [ocr_writes] leaves, and the only document the splitter
    makes of it once its delimiters are switched. *)
Definition raw_markup : string := "# Title" +:+ Py.nl +:+ "Energy \(E\)".


End Demo.

Section Program.

(** *** The outside world *)

(** [uuid.uuid4().hex] drawn by this call. *)
Variable uuid_hex : string.
(** [requests.get]. *)
Variable requests_get : string -> response.
(** [subprocess.run] of a command line; the exit status is not looked at. *)
Variable subprocess_run : list string -> M unit.
(** [MarkdownHeaderTextSplitter(headers_to_split_on).split_text]. *)
Variable split_text : string -> list Document.
(** [json.dumps]. *)
Variable json_dumps : dict -> string.
(** The [content] of the chunks streamed by the section-summary chain for
    [{"headers": h, "page_content": c}], and by the final-summary chain
    for [{"docs": d}]. *)
Variable individual_summary_chain_stream : string -> string -> list string.
Variable final_summary_chain_stream : string -> list string.

(** *** Acquisition and conversion (app.py, lines 17-98) *)

Definition download_pdf_from_url (pdf_link : string) : M string :=
  let unique_filename := "input/downloaded_paper_" +:+ uuid_hex +:+ ".pdf" in
  let response := requests_get pdf_link in
  (if (status_code response =? 200)%nat
   then write_file unique_filename (content response)
   else mret tt);;
  mret unique_filename.

Definition nougat_ocr (file_path : string) : M unit :=
  b ← path_exists file_path;
  py_assert b ("File " +:+ file_path +:+ " does not exist");;
  let cli_command :=
    ["nougat"; "--out"; "output"; "pdf"; file_path; "--markdown"] in
  subprocess_run cli_command.

Definition markdown_path_of (file_path : string) : string :=
  "output/" +:+ stem file_path +:+ ".mmd".

Definition no_data_message : string :=
  "No data provided. Upload a pdf file or provide a pdf link and try again!".

(** The name [download_pdf_from_url] generates on this call. *)
Definition fresh_path : string :=
  "input/downloaded_paper_" +:+ uuid_hex +:+ ".pdf".

(** The name [pdf_to_mmd] hands to the OCR step. *)
Definition file_name_for (pdf_file : option string) : string :=
  match pdf_file with
  | None => fresh_path
  | Some _ => "not yet implemented"
  end.

(** Lines 63-75 of [pdf_to_mmd]: the folders and the choice of [file_name]. *)
Definition acquire (pdf_file : option string) (pdf_link : string) : M flow :=
  mkdir "input";;
  mkdir "output";;
  match pdf_file with
  | None =>
      if String.eqb pdf_link ""
      then mret (Return no_data_message)
      else file_name ← download_pdf_from_url pdf_link;
           mret (Continue file_name)
  | Some _ =>
      let file_name := "not yet implemented" in
      mret (Continue file_name)
  end.

(** Lines 77-98 of [pdf_to_mmd]: OCR and loading of the markup. *)
Definition convert (file_name : string) : M string :=
  let file_path := file_name in
  b ← path_exists file_path;
  py_assert b ("File " +:+ file_path +:+ " does not exist");;
  nougat_ocr file_path;;
  let markdown_path := markdown_path_of file_path in
  b' ← path_exists markdown_path;
  py_assert b' ("File " +:+ markdown_path +:+ " does not exist");;
  content ← read_file markdown_path;
  mret (switch_math_delimiters content).

Definition pdf_to_mmd (pdf_file : option string) (pdf_link : string) : M string :=
  r ← acquire pdf_file pdf_link;
  match r with
  | Return value => mret value
  | Continue file_name => convert file_name
  end.

(** The OCR step run on [file_name] leaves no markup file behind. *)
Definition ocr_leaves_nothing (file_name : string) (fs : FS) : bool :=
  match nougat_ocr file_name fs with
  | Ok (_, fs1) => negb (exists_in fs1 (markdown_path_of file_name))
  | Raise _ => true
  end.

(** *** The two generators (app.py, lines 132-177) *)

(** Lines 152-159: the loop over [split.metadata.keys()]; a later key
    overwrites what an earlier one set. *)
Definition header_step (md : dict) (header_to_append key : string) : string :=
  if String.eqb key "Header 3" then Py.nl +:+ "### " +:+ getitem md key +:+ Py.nl
  else if String.eqb key "Header 2" then Py.nl +:+ "## " +:+ getitem md key +:+ Py.nl
  else if String.eqb key "Header 1" then Py.nl +:+ "# " +:+ getitem md key +:+ Py.nl
  else header_to_append.

Definition header_to_append (md : dict) : string :=
  fold_left (header_step md) (keys md) "".

(** A streaming loop [for s in chain.stream(..): acc += s.content; yield acc]:
    the values yielded and the accumulator at the end. *)
Fixpoint stream_loop (acc : string) (chunks : list string) : list string * string :=
  match chunks with
  | [] => ([], acc)
  | c :: chunks' =>
      let acc' := acc +:+ c in
      let '(ys, final) := stream_loop acc' chunks' in
      (acc' :: ys, final)
  end.

(** Lines 148-169: the loop over the splits, [summary] threaded through.
    ([summary_docs] is only appended to and never read.) *)
Fixpoint summary_loop (summary : string) (md_header_splits : list Document)
  : list string * string :=
  match md_header_splits with
  | [] => ([], summary)
  | split :: rest =>
      let current_header := json_dumps (metadata split) in
      let current_page_content := page_content split in
      let summary1 := summary +:+ header_to_append (metadata split) in
      let '(ys, summary2) :=
        stream_loop summary1
          (individual_summary_chain_stream current_header current_page_content) in
      let '(zs, final) := summary_loop summary2 rest in
      ((ys ++ zs)%list, final)
  end.

(** The values yielded by [generate_individual_summary(parsed_output)]. *)
Definition generate_individual_summary (parsed_output : string) : list string :=
  fst (summary_loop "" (split_text parsed_output)).

(** The values yielded by [generate_final_summary(individual_summaries)]. *)
Definition generate_final_summary (individual_summaries : string) : list string :=
  fst (stream_loop "" (final_summary_chain_stream individual_summaries)).

(** *** The button chain of [main] (app.py, lines 226-238) *)

(** [btn.click(pdf_to_mmd).success(generate_individual_summary)
    .success(generate_final_summary)]: a handler after [.success] runs only
    when the one before it finished without raising; a generator handler
    shows each value it yields in its output pane. *)
Definition btn_click (ui : panes) (pdf_file : option string) (pdf_link : string)
    (fs : FS) : run :=
  match pdf_to_mmd pdf_file pdf_link fs with
  | Raise e =>
      {| invoked := [PdfToMmd]; sections := []; shown := ui; failure := Some e |}
  | Ok (markup, _) =>
      let individual :=
        List.last (generate_individual_summary markup) (individual_summary ui) in
      let final :=
        List.last (generate_final_summary individual) (final_summary ui) in
      {| invoked := [PdfToMmd; GenerateIndividualSummary; GenerateFinalSummary];
         sections := split_text markup;
         shown := {| parsed_output := markup;
                     individual_summary := individual;
                     final_summary := final |};
         failure := None |}
  end.

(** *** Terms the statements use *)

(** The chunks streamed for one split. *)
Definition chunks_of (split : Document) : list string :=
  individual_summary_chain_stream (json_dumps (metadata split)) (page_content split).

(** The completed summary of one split: everything streamed for it. *)
Definition completed_summary (split : Document) : string :=
  Py.join (chunks_of split).

(** The summary of one split after its first [j] chunks. *)
Definition partial_summary (split : Document) (j : nat) : string :=
  Py.join (take j (chunks_of split)).

(** Reconstructed header followed by completed summary, for each split. *)
Definition combined (splits : list Document) : string :=
  Py.join (map (fun d => header_to_append (metadata d) +:+ completed_summary d) splits).

(** How many values have been yielded once [splits] are done. *)
Definition yielded_by (splits : list Document) : nat :=
  length (concat (map chunks_of splits)).

(** ** String lemmas *)

(** Induction that steps over one or two characters. *)
Lemma string_ind2 (P : string -> Prop) :
  P "" ->
  (forall a, P (String a "")) ->
  (forall a b s, P s -> P (String b s) -> P (String a (String b s))) ->
  forall s, P s.
Proof.
  intros H0 H1 H2 s.
  assert (both : P s /\ forall a, P (String a s)).
  { induction s as [|b s [IHs IHbs]]; split; auto. }
  exact (proj1 both).
Qed.

Lemma append_nil_r (s : string) : s +:+ "" = s.
Proof. induction s; simpl; congruence. Qed.

Lemma append_assoc (s t u : string) : (s +:+ t) +:+ u = s +:+ (t +:+ u).
Proof. induction s; simpl; congruence. Qed.

Lemma length_append (s t : string) :
  String.length (s +:+ t) = String.length s + String.length t.
Proof. induction s; simpl; congruence. Qed.

Lemma prefix_nil (t : string) : String.prefix "" t = true.
Proof. by destruct t. Qed.

Lemma prefix_cons a s b t :
  String.prefix (String a s) (String b t) = Ascii.eqb a b && String.prefix s t.
Proof.
  change (String.prefix (String a s) (String b t))
    with (if ascii_dec a b then String.prefix s t else false).
  destruct (ascii_dec a b) as [->|Hne].
  - by rewrite Ascii.eqb_refl.
  - by apply Ascii.eqb_neq in Hne as ->.
Qed.

Lemma prefix_append (s t : string) : String.prefix s (s +:+ t) = true.
Proof.
  induction s as [|a s IH]; [apply prefix_nil|].
  change (String a s +:+ t) with (String a (s +:+ t)).
  by rewrite prefix_cons, Ascii.eqb_refl.
Qed.

Lemma prefix_refl (s : string) : String.prefix s s = true.
Proof. rewrite <- (append_nil_r s) at 2. apply prefix_append. Qed.

Lemma prefix_inv (s t : string) :
  String.prefix s t = true -> exists u, t = s +:+ u.
Proof.
  revert t. induction s as [|a s IH]; intros t H.
  - exists t. reflexivity.
  - destruct t as [|b t]; [discriminate|].
    rewrite prefix_cons in H. apply andb_prop in H as [Hab H].
    apply Ascii.eqb_eq in Hab as ->.
    destruct (IH t H) as [u ->]. by exists u.
Qed.

Lemma join_app (l1 l2 : list string) :
  Py.join (l1 ++ l2)%list = Py.join l1 +:+ Py.join l2.
Proof.
  induction l1 as [|x l1 IH]; simpl; [reflexivity|].
  by rewrite IH, append_assoc.
Qed.

(** ** One pass against four replacements *)

Lemma one_pass_other tbl (x : ascii) (r : string) :
  Ascii.eqb x "\" = false -> one_pass tbl (String x r) = String x (one_pass tbl r).
Proof. intros Hx. destruct r; simpl; by rewrite ?Hx. Qed.

Lemma one_pass_text tbl (v r : string) :
  no_backslash v = true -> one_pass tbl (v +:+ r) = v +:+ one_pass tbl r.
Proof.
  induction v as [|x v IH]; simpl; intros Hv; [reflexivity|].
  apply andb_prop in Hv as [Hx Hv]. apply negb_true_iff in Hx.
  change (one_pass tbl (String x (v +:+ r)) = String x (v +:+ one_pass tbl r)).
  by rewrite (one_pass_other _ _ _ Hx), IH.
Qed.

Lemma lookup_delim_fits c tbl b v :
  fits c tbl = true -> lookup_delim b tbl = Some v ->
  Ascii.eqb b c = false /\ no_backslash v = true /\ starts_other c v = true.
Proof.
  induction tbl as [|[k w] tbl IH]; simpl; intros Hf Hl; [discriminate|].
  apply andb_prop in Hf as [Hkw Hf].
  destruct (Ascii.eqb b k) eqn:Hbk.
  - injection Hl as <-. apply Ascii.eqb_eq in Hbk as ->.
    apply andb_prop in Hkw as [Hkw Hs]. apply andb_prop in Hkw as [Hk Hn].
    by apply negb_true_iff in Hk.
  - by apply IH.
Qed.

Lemma lookup_delim_app b tbl c new :
  lookup_delim b (tbl ++ [(c, new)])%list =
  match lookup_delim b tbl with
  | Some v => Some v
  | None => if Ascii.eqb b c then Some new else None
  end.
Proof.
  induction tbl as [|[k w] tbl IH]; simpl; [reflexivity|].
  by destruct (Ascii.eqb b k).
Qed.

Lemma one_pass_head c tbl b r :
  fits c tbl = true -> Ascii.eqb c "\" = false -> Ascii.eqb b c = false ->
  exists x y, one_pass tbl (String b r) = String x y /\ Ascii.eqb x c = false.
Proof.
  intros Hf Hc Hb. destruct r as [|b' r]; simpl; [by eauto|].
  destruct (Ascii.eqb b "\") eqn:Hbs; [|by eauto].
  destruct (lookup_delim b' tbl) as [v|] eqn:Hl; [|by eauto].
  destruct (lookup_delim_fits _ _ _ _ Hf Hl) as (_ & _ & Hs).
  destruct v as [|x v]; [discriminate|]. simpl in Hs.
  apply negb_true_iff in Hs. simpl. by eauto.
Qed.

(** Replacing backslash-[c] after a one-pass substitution is the one-pass
    substitution with the entry for [c] added. *)
Lemma one_pass_snoc c new tbl :
  Ascii.eqb c "\" = false -> fits c tbl = true ->
  forall s, one_pass [(c, new)] (one_pass tbl s) = one_pass (tbl ++ [(c, new)])%list s.
Proof.
  intros Hc Hf. induction s as [|a|a b s IH1 IH2] using string_ind2;
    [reflexivity|reflexivity|].
  destruct (Ascii.eqb a "\") eqn:Ha.
  - apply Ascii.eqb_eq in Ha as ->.
    change (one_pass (tbl ++ [(c, new)])%list (String "\" (String b s))) with
      (match lookup_delim b (tbl ++ [(c, new)])%list with
       | Some v => v +:+ one_pass (tbl ++ [(c, new)])%list s
       | None => String "\" (one_pass (tbl ++ [(c, new)])%list (String b s))
       end).
    change (one_pass tbl (String "\" (String b s))) with
      (match lookup_delim b tbl with
       | Some v => v +:+ one_pass tbl s
       | None => String "\" (one_pass tbl (String b s))
       end).
    rewrite lookup_delim_app.
    destruct (lookup_delim b tbl) as [v|] eqn:Hl.
    + destruct (lookup_delim_fits _ _ _ _ Hf Hl) as (_ & Hn & _).
      by rewrite one_pass_text, IH1.
    + destruct (Ascii.eqb b c) eqn:Hb.
      * apply Ascii.eqb_eq in Hb as ->.
        rewrite (one_pass_other tbl c s Hc). simpl.
        rewrite Ascii.eqb_refl. by rewrite IH1.
      * destruct (one_pass_head c tbl b s Hf Hc Hb) as (x & y & Hxy & Hx).
        rewrite <- IH2, Hxy. simpl. by rewrite Hx.
  - rewrite (one_pass_other tbl a _ Ha), (one_pass_other _ a _ Ha).
    by rewrite (one_pass_other _ a _ Ha), IH2.
Qed.

(** [replace] of a backslash pair is a one-pass substitution. *)
Lemma replace_pair c new s :
  Py.replace s (String "\" (String c "")) new = one_pass [(c, new)] s.
Proof.
  unfold Py.replace.
  induction s as [|a|a b s IH1 IH2] using string_ind2.
  - reflexivity.
  - change (Py.replace_from (String "\" (String c "")) new 0 (String a ""))
      with (if String.prefix (String "\" (String c "")) (String a "")
            then new +:+ "" else String a "").
    rewrite prefix_cons.
    change (String.prefix (String c "") "") with false.
    by rewrite andb_false_r.
  - change (one_pass [(c, new)] (String a (String b s))) with
      (if Ascii.eqb a "\"
       then match (if Ascii.eqb b c then Some new else None) with
            | Some v => v +:+ one_pass [(c, new)] s
            | None => String a (one_pass [(c, new)] (String b s))
            end
       else String a (one_pass [(c, new)] (String b s))).
    rewrite <- IH1, <- IH2.
    change (Py.replace_from (String "\" (String c "")) new 0 (String a (String b s)))
      with (if String.prefix (String "\" (String c "")) (String a (String b s))
            then new +:+ Py.replace_from (String "\" (String c "")) new 0 s
            else String a (Py.replace_from (String "\" (String c "")) new 0 (String b s))).
    rewrite !prefix_cons, prefix_nil, andb_true_r.
    rewrite (Ascii.eqb_sym "\" a), (Ascii.eqb_sym c b).
    destruct (Ascii.eqb a "\"), (Ascii.eqb b c); reflexivity.
Qed.

Lemma switch_math_delimiters_one_pass (content : string) :
  switch_math_delimiters content = math_delimiters_one_pass content.
Proof.
  unfold switch_math_delimiters, math_delimiters_one_pass, delimiter_table.
  rewrite !replace_pair.
  rewrite (one_pass_snoc ")" "$" [("("%char, "$")]) by reflexivity.
  rewrite (one_pass_snoc "[" "$$" [("("%char, "$"); (")"%char, "$")]) by reflexivity.
  by rewrite (one_pass_snoc "]" "$$" [("("%char, "$"); (")"%char, "$"); ("["%char, "$$")])
    by reflexivity.
Qed.

(** ** Streams *)

Lemma prefix_trans (a b c : string) :
  String.prefix a b = true -> String.prefix b c = true -> String.prefix a c = true.
Proof.
  intros [u ->]%prefix_inv [v ->]%prefix_inv.
  rewrite append_assoc. apply prefix_append.
Qed.








Lemma stream_loop_final acc chunks :
  snd (stream_loop acc chunks) = acc +:+ Py.join chunks.
Proof.
  revert acc. induction chunks as [|c cs IH]; intros acc.
  - by rewrite append_nil_r.
  - simpl. specialize (IH (acc +:+ c)).
    destruct (stream_loop (acc +:+ c) cs). simpl in *.
    by rewrite IH, append_assoc.
Qed.

Lemma stream_loop_length acc chunks :
  length (fst (stream_loop acc chunks)) = length chunks.
Proof.
  revert acc. induction chunks as [|c cs IH]; intros acc; [done|].
  simpl. specialize (IH (acc +:+ c)).
  destruct (stream_loop (acc +:+ c) cs). simpl in *. by rewrite IH.
Qed.

(** The value yielded after chunk [i] (counted from zero). *)
Lemma stream_loop_lookup acc chunks i :
  i < length chunks ->
  fst (stream_loop acc chunks) !! i = Some (acc +:+ Py.join (take (S i) chunks)).
Proof.
  revert acc i. induction chunks as [|c cs IH]; intros acc i Hi; [simpl in Hi; lia|].
  simpl. pose proof (IH (acc +:+ c)) as IH'.
  destruct (stream_loop (acc +:+ c) cs) as [ys fin]. simpl in *.
  destruct i as [|i].
  - simpl. by rewrite append_nil_r.
  - simpl. rewrite IH' by lia. by rewrite append_assoc.
Qed.





(** One round of the loop over the splits. *)
Lemma summary_loop_cons summary split rest :
  summary_loop summary (split :: rest) =
  let summary1 := summary +:+ header_to_append (metadata split) in
  let summary2 := summary1 +:+ completed_summary split in
  ((fst (stream_loop summary1 (chunks_of split))
    ++ fst (summary_loop summary2 rest))%list,
   snd (summary_loop summary2 rest)).
Proof.
  cbv zeta. unfold completed_summary, chunks_of. rewrite <- stream_loop_final.
  simpl. destruct (stream_loop _ _) as [ys s2]. simpl.
  by destruct (summary_loop s2 rest).
Qed.

Lemma combined_cons split rest :
  combined (split :: rest) =
  (header_to_append (metadata split) +:+ completed_summary split) +:+ combined rest.
Proof. reflexivity. Qed.

Lemma combined_app pre post : combined (pre ++ post)%list = combined pre +:+ combined post.
Proof. unfold combined. by rewrite map_app, join_app. Qed.

Lemma summary_loop_final summary splits :
  snd (summary_loop summary splits) = summary +:+ combined splits.
Proof.
  revert summary. induction splits as [|d rest IH]; intros summary.
  - simpl. by rewrite append_nil_r.
  - rewrite summary_loop_cons. cbv zeta. simpl snd.
    by rewrite IH, combined_cons, !append_assoc.
Qed.

Lemma summary_loop_length summary splits :
  length (fst (summary_loop summary splits)) = yielded_by splits.
Proof.
  unfold yielded_by. revert summary.
  induction splits as [|d rest IH]; intros summary; [done|].
  rewrite summary_loop_cons. cbv zeta. simpl fst.
  rewrite length_app, stream_loop_length, IH. simpl. by rewrite length_app.
Qed.

Lemma summary_loop_app summary pre post :
  fst (summary_loop summary (pre ++ post)%list) =
  (fst (summary_loop summary pre)
   ++ fst (summary_loop (summary +:+ combined pre) post))%list.
Proof.
  revert summary. induction pre as [|d pre IH]; intros summary.
  - simpl. by rewrite append_nil_r.
  - change ((d :: pre) ++ post)%list with (d :: (pre ++ post))%list.
    rewrite !summary_loop_cons. cbv zeta. simpl fst.
    rewrite IH, combined_cons, <- app_assoc. by rewrite !append_assoc.
Qed.


(** ** Header reconstruction *)

Lemma key_level_inv key n :
  key_level key = Some n ->
  (key = "Header 1" /\ n = 1) \/ (key = "Header 2" /\ n = 2)
  \/ (key = "Header 3" /\ n = 3).
Proof.
  unfold key_level.
  destruct (String.eqb key "Header 1") eqn:H1;
    [apply String.eqb_eq in H1; intros [= <-]; auto|].
  destruct (String.eqb key "Header 2") eqn:H2;
    [apply String.eqb_eq in H2; intros [= <-]; auto|].
  destruct (String.eqb key "Header 3") eqn:H3;
    [apply String.eqb_eq in H3; intros [= <-]; auto|].
  discriminate.
Qed.

(** A configured key sets the header, whatever was set before. *)
Lemma header_step_level md acc key n :
  key_level key = Some n ->
  header_step md acc key = Py.nl +:+ marker n +:+ " " +:+ getitem md key +:+ Py.nl.
Proof.
  intros [[-> ->]|[[-> ->]|[-> ->]]]%key_level_inv; reflexivity.
Qed.



(** ** Acquisition and conversion *)

Lemma bind_eq {A B} (m : M A) (f : A -> M B) (fs : FS) :
  (m ≫= f) fs = match m fs with
                | Ok (a, fs') => f a fs'
                | Raise e => Raise e
                end.
Proof. reflexivity. Qed.

Lemma mkdir_ensure p fs :
  is_file fs p = false -> mkdir p fs = Ok (tt, ensure_dir p fs).
Proof.
  unfold is_file, mkdir, ensure_dir. by destruct (fs !! p) as [[]|].
Qed.

Lemma ensure_dir_other p q fs :
  q <> p -> ensure_dir p fs !! q = fs !! q.
Proof.
  intros Hne. unfold ensure_dir. destruct (fs !! p); [reflexivity|].
  by rewrite lookup_insert_ne.
Qed.

Lemma is_file_ensure_dir_other p q fs :
  q <> p -> is_file (ensure_dir p fs) q = is_file fs q.
Proof. intros Hne. unfold is_file. by rewrite ensure_dir_other. Qed.

Lemma exists_in_ensure_dir_other p q fs :
  q <> p -> exists_in (ensure_dir p fs) q = exists_in fs q.
Proof. intros Hne. unfold exists_in. by rewrite ensure_dir_other. Qed.

Lemma fresh_path_not_input : fresh_path <> "input".
Proof. unfold fresh_path. simpl. discriminate. Qed.

Lemma fresh_path_not_output : fresh_path <> "output".
Proof. unfold fresh_path. simpl. discriminate. Qed.


Lemma download_returns pdf_link fs name fs' :
  download_pdf_from_url pdf_link fs = Ok (name, fs') -> name = fresh_path.
Proof.
  unfold download_pdf_from_url. rewrite bind_eq.
  destruct (status_code (requests_get pdf_link) =? 200)%nat.
  - destruct (write_file _ _ fs) as [[[] fs1]|e]; [|discriminate].
    intros [= <- _]. reflexivity.
  - intros [= <- _]. reflexivity.
Qed.

(** What [acquire] does once the two folders are in place. *)
Lemma acquire_folders pdf_file pdf_link fs :
  is_file fs "input" = false -> is_file fs "output" = false ->
  acquire pdf_file pdf_link fs =
  let fs2 := ensure_dir "output" (ensure_dir "input" fs) in
  match pdf_file with
  | None =>
      if String.eqb pdf_link "" then Ok (Return no_data_message, fs2)
      else match download_pdf_from_url pdf_link fs2 with
           | Ok (file_name, fs3) => Ok (Continue file_name, fs3)
           | Raise e => Raise e
           end
  | Some _ => Ok (Continue "not yet implemented", fs2)
  end.
Proof.
  intros Hin Hout. unfold acquire.
  rewrite bind_eq, (mkdir_ensure _ _ Hin), bind_eq, mkdir_ensure.
  - destruct pdf_file; [reflexivity|].
    destruct (String.eqb pdf_link ""); [reflexivity|].
    rewrite bind_eq. by destruct (download_pdf_from_url _ _) as [[]|].
  - by rewrite is_file_ensure_dir_other.
Qed.

Lemma acquire_inv pdf_file pdf_link fs r fs1 :
  acquire pdf_file pdf_link fs = Ok (r, fs1) ->
  match r with
  | Return value => pdf_file = None /\ pdf_link = "" /\ value = no_data_message
  | Continue file_name => file_name = file_name_for pdf_file
  end.
Proof.
  unfold acquire. rewrite bind_eq.
  destruct (mkdir "input" fs) as [[[] fs']|]; [|discriminate].
  rewrite bind_eq.
  destruct (mkdir "output" fs') as [[[] fs'']|]; [|discriminate].
  destruct pdf_file as [f|].
  - intros [= <- _]. reflexivity.
  - destruct (String.eqb pdf_link "") eqn:Hl.
    + intros [= <- _]. by apply String.eqb_eq in Hl.
    + rewrite bind_eq.
      destruct (download_pdf_from_url pdf_link fs'') as [[name fs3]|] eqn:Hd;
        [|discriminate].
      intros [= <- _]. exact (download_returns _ _ _ _ Hd).
Qed.

Lemma bind_ok {A B} (m : M A) (f : A -> M B) fs a fs1 :
  m fs = Ok (a, fs1) -> (m ≫= f) fs = f a fs1.
Proof. intros H. by rewrite bind_eq, H. Qed.

Lemma bind_raise {A B} (m : M A) (f : A -> M B) fs e :
  m fs = Raise e -> (m ≫= f) fs = Raise e.
Proof. intros H. by rewrite bind_eq, H. Qed.

Lemma bind_ok_inv {A B} (m : M A) (f : A -> M B) fs b fs' :
  (m ≫= f) fs = Ok (b, fs') ->
  exists a fs1, m fs = Ok (a, fs1) /\ f a fs1 = Ok (b, fs').
Proof.
  rewrite bind_eq. destruct (m fs) as [[a fs1]|]; [|discriminate].
  intros H. by exists a, fs1.
Qed.

Lemma py_assert_ok_inv cond msg fs u fs' :
  py_assert cond msg fs = Ok (u, fs') -> cond = true /\ fs' = fs.
Proof. destruct cond; [|discriminate]. by intros [= _ <-]. Qed.

Lemma py_assert_true msg fs : py_assert true msg fs = Ok (tt, fs).
Proof. reflexivity. Qed.

Lemma py_assert_false msg fs : py_assert false msg fs = Raise (AssertionError msg).
Proof. reflexivity. Qed.

Lemma path_exists_eq p fs : path_exists p fs = Ok (exists_in fs p, fs).
Proof. reflexivity. Qed.

(** A conversion that returns has read the markup file it names. *)
Lemma convert_inv file_name fs markup fs' :
  convert file_name fs = Ok (markup, fs') ->
  exists raw, fs' !! markdown_path_of file_name = Some (File raw)
              /\ markup = switch_math_delimiters raw.
Proof.
  unfold convert. intros H.
  apply bind_ok_inv in H as (b & fs0 & _ & H).
  apply bind_ok_inv in H as (_ & fs1 & _ & H).
  apply bind_ok_inv in H as (_ & fs2 & _ & H).
  apply bind_ok_inv in H as (b' & fs3 & [= _ <-] & H).
  apply bind_ok_inv in H as (_ & fs4 & [_ ->]%py_assert_ok_inv & H).
  apply bind_ok_inv in H as (raw & fs5 & Hread & [= <- <-]).
  exists raw. split; [|reflexivity].
  unfold read_file in Hread.
  destruct (fs2 !! markdown_path_of file_name) as [[c|]|] eqn:Hl;
    [|discriminate..].
  by injection Hread as -> ->.
Qed.

(** A conversion whose OCR step leaves nothing raises. *)
Lemma convert_nothing file_name fs :
  ocr_leaves_nothing file_name fs = true ->
  exists e, convert file_name fs = Raise e.
Proof.
  unfold ocr_leaves_nothing, convert. intros Hn.
  rewrite (bind_ok _ _ _ _ _ (path_exists_eq _ _)).
  destruct (exists_in fs file_name).
  - rewrite (bind_ok _ _ _ _ _ (py_assert_true _ _)).
    destruct (nougat_ocr file_name fs) as [[[] fs1]|e] eqn:Hocr.
    + rewrite (bind_ok _ _ _ _ _ Hocr).
      rewrite (bind_ok _ _ _ _ _ (path_exists_eq _ _)).
      apply negb_true_iff in Hn. rewrite Hn.
      rewrite (bind_raise _ _ _ _ (py_assert_false _ _)). by eexists.
    + rewrite (bind_raise _ _ _ _ Hocr). by eexists.
  - rewrite (bind_raise _ _ _ _ (py_assert_false _ _)). by eexists.
Qed.

(** A missing input file stops the conversion at its first assertion. *)
Lemma convert_missing file_name fs :
  exists_in fs file_name = false ->
  convert file_name fs =
  Raise (AssertionError ("File " +:+ file_name +:+ " does not exist")).
Proof.
  intros He. unfold convert.
  rewrite (bind_ok _ _ _ _ _ (path_exists_eq _ _)), He.
  by rewrite (bind_raise _ _ _ _ (py_assert_false _ _)).
Qed.


(** The chain stops at a handler that raises. *)
Lemma btn_click_raise ui pdf_file pdf_link fs e :
  pdf_to_mmd pdf_file pdf_link fs = Raise e ->
  btn_click ui pdf_file pdf_link fs =
  {| invoked := [PdfToMmd]; sections := []; shown := ui; failure := Some e |}.
Proof. intros H. unfold btn_click. by rewrite H. Qed.

(** C10: whenever a document was named (an upload, or a link) and
    [pdf_to_mmd] returns, the text it returns is the content of the OCR
    output file after the four replacements in their order: backslash-paren
    pairs to one dollar, then backslash-bracket pairs to two dollars.  That
    chain equals the single left-to-right pass that rewrites exactly these
    four two-character sequences and copies every other character. *)
Theorem pdf_to_mmd_switches_delimiters pdf_file pdf_link fs markup fs' :
  (pdf_file = None -> pdf_link <> "") ->
  pdf_to_mmd pdf_file pdf_link fs = Ok (markup, fs') ->
  exists raw,
    fs' !! markdown_path_of (file_name_for pdf_file) = Some (File raw)
    /\ markup =
       Py.replace (Py.replace (Py.replace (Py.replace raw "\(" "$") "\)" "$")
                     "\[" "$$") "\]" "$$"
    /\ markup = math_delimiters_one_pass raw.
Proof.
  intros Hdoc H. unfold pdf_to_mmd in H.
  apply bind_ok_inv in H as (r & fs1 & Hacq & H).
  pose proof (acquire_inv _ _ _ _ _ Hacq) as Hr.
  destruct r as [value|file_name].
  - destruct Hr as (-> & -> & _). by destruct Hdoc.
  - subst file_name.
    destruct (convert_inv _ _ _ _ H) as (raw & Hraw & ->).
    exists raw. split; [exact Hraw|]. split; [reflexivity|].
    apply switch_math_delimiters_one_pass.
Qed.


(** C6: when acquisition hands a file to the conversion and the OCR step
    leaves no markup file, [pdf_to_mmd] raises, the chain stops after it,
    [generate_individual_summary] is not invoked and no section exists. *)
Theorem conversion_failure_stops_chain ui pdf_file pdf_link fs file_name fs1 :
  acquire pdf_file pdf_link fs = Ok (Continue file_name, fs1) ->
  ocr_leaves_nothing file_name fs1 = true ->
  exists e,
    pdf_to_mmd pdf_file pdf_link fs = Raise e
    /\ btn_click ui pdf_file pdf_link fs =
       {| invoked := [PdfToMmd]; sections := []; shown := ui; failure := Some e |}.
Proof.
  intros Hacq Hocr.
  destruct (convert_nothing _ _ Hocr) as [e He].
  assert (Hraise : pdf_to_mmd pdf_file pdf_link fs = Raise e).
  { unfold pdf_to_mmd. by rewrite (bind_ok _ _ _ _ _ Hacq). }
  exists e. split; [exact Hraise|]. by apply btn_click_raise.
Qed.


(** C1: let the splitter return [pre ++ split :: post].  The value yielded
    after the [j]-th chunk of [split] is the concatenation of reconstructed
    header and completed summary of the sections in [pre], followed by the
    header of [split] and its summary so far; at the last chunk this is the
    same concatenation taken over [pre ++ [split]]. *)
Theorem combined_summary_progress parsed_output pre split post j :
  split_text parsed_output = (pre ++ split :: post)%list ->
  1 <= j <= length (chunks_of split) ->
  generate_individual_summary parsed_output !! (yielded_by pre + j - 1)
  = Some (combined pre +:+ header_to_append (metadata split)
          +:+ partial_summary split j)
  /\ (j = length (chunks_of split) ->
      generate_individual_summary parsed_output !! (yielded_by pre + j - 1)
      = Some (combined (pre ++ [split])%list)).
Proof.
  intros Hsplit [Hj1 Hj2].
  assert (Hat : generate_individual_summary parsed_output !! (yielded_by pre + j - 1)
                = Some (combined pre +:+ header_to_append (metadata split)
                        +:+ partial_summary split j)).
  { unfold generate_individual_summary. rewrite Hsplit, summary_loop_app.
    rewrite lookup_app_r by (rewrite summary_loop_length; lia).
    rewrite summary_loop_length, summary_loop_cons. cbv zeta. simpl fst.
    rewrite lookup_app_l by (rewrite stream_loop_length; lia).
    rewrite stream_loop_lookup by lia.
    replace (S (yielded_by pre + j - 1 - yielded_by pre)) with j by lia.
    unfold partial_summary. simpl. by rewrite append_assoc. }
  split; [exact Hat|].
  intros ->. rewrite Hat. f_equal.
  unfold partial_summary. rewrite firstn_all.
  rewrite combined_app, combined_cons. unfold combined at 3. simpl Py.join.
  by rewrite append_nil_r.
Qed.



(** ** Paths the program builds *)

Lemma has_slash_app (s t : string) :
  has_slash (s +:+ t) = has_slash s || has_slash t.
Proof. induction s as [|c s IH]; simpl; [reflexivity|]. by rewrite IH, orb_assoc. Qed.

Lemma rfind_dot_app (s t : string) :
  rfind_dot (s +:+ t)
  = match rfind_dot t with
    | Some i => Some (String.length s + i)
    | None => rfind_dot s
    end.
Proof.
  induction s as [|c s IH]; simpl.
  - by destruct (rfind_dot t).
  - rewrite IH. by destruct (rfind_dot t).
Qed.

Lemma substring_0_app (s t : string) :
  String.substring 0 (String.length s) (s +:+ t) = s.
Proof. induction s as [|c s IH]; simpl; [by destruct t|]. by rewrite IH. Qed.

Lemma path_name_join (dir name : string) :
  has_slash name = false -> path_name (dir +:+ String "/" name) = name.
Proof.
  intros Hn. induction dir as [|c dir IH]; simpl.
  - by rewrite Hn.
  - rewrite has_slash_app. simpl. by rewrite orb_true_r.
Qed.

Lemma path_parent_join (dir name : string) :
  has_slash name = false -> path_parent (dir +:+ String "/" name) = Some dir.
Proof.
  intros Hn. induction dir as [|c dir IH]; simpl.
  - by rewrite Hn.
  - rewrite has_slash_app. simpl. by rewrite orb_true_r, IH.
Qed.

(** The stem of [dir/base.ext] for a plain [base] and a plain [ext]. *)
Lemma stem_join (dir base ext : string) :
  plain_name base = true -> plain_name ext = true ->
  base <> "" -> ext <> "" ->
  stem (dir +:+ String "/" (base +:+ String "." ext)) = base.
Proof.
  unfold plain_name. intros [Hbs Hbd]%andb_prop [Hes Hed]%andb_prop Hb He.
  apply negb_true_iff in Hbs, Hes.
  destruct (rfind_dot base) eqn:Hdb; [discriminate|].
  destruct (rfind_dot ext) eqn:Hde; [discriminate|].
  unfold stem. rewrite path_name_join; last first.
  { rewrite has_slash_app. simpl. by rewrite Hbs, Hes. }
  rewrite rfind_dot_app. simpl. rewrite Hde. simpl.
  rewrite Nat.add_0_r, length_append. simpl.
  assert (Hlb : 0 < String.length base) by (destruct base; [done|simpl; lia]).
  assert (Hle : 0 < String.length ext) by (destruct ext; [done|simpl; lia]).
  assert ((0 <? String.length base)%nat = true) as -> by (by apply Nat.ltb_lt).
  assert ((String.length base <? String.length base + S (String.length ext) - 1)%nat
          = true) as -> by (apply Nat.ltb_lt; lia).
  simpl. apply substring_0_app.
Qed.

Lemma plain_download_name :
  plain_name uuid_hex = true ->
  plain_name ("downloaded_paper_" +:+ uuid_hex) = true.
Proof.
  unfold plain_name. intros [Hs Hd]%andb_prop.
  rewrite has_slash_app, rfind_dot_app. apply negb_true_iff in Hs. rewrite Hs.
  by destruct (rfind_dot uuid_hex).
Qed.

Lemma fresh_path_parent :
  plain_name uuid_hex = true -> path_parent fresh_path = Some "input".
Proof.
  intros Hp.
  change fresh_path
    with ("input" +:+ String "/" ("downloaded_paper_" +:+ uuid_hex +:+ ".pdf")).
  apply path_parent_join.
  unfold plain_name in Hp. apply andb_prop in Hp as [Hs _].
  apply negb_true_iff in Hs.
  rewrite has_slash_app, has_slash_app. simpl. by rewrite Hs.
Qed.

Lemma markdown_path_fresh :
  plain_name uuid_hex = true ->
  markdown_path_of fresh_path = "output/downloaded_paper_" +:+ uuid_hex +:+ ".mmd".
Proof.
  intros Hp. unfold markdown_path_of.
  change fresh_path
    with ("input" +:+ String "/" (("downloaded_paper_" +:+ uuid_hex) +:+ String "." "pdf")).
  rewrite stem_join; [by rewrite append_assoc|by apply plain_download_name|done|done|done].
Qed.

(** X13: for a generated name without slash or dot, the markup file that
    [pdf_to_mmd] expects from the OCR step is
    [output/downloaded_paper_<hex>.mmd]. *)
Theorem markdown_path_of_download :
  plain_name uuid_hex = true ->
  markdown_path_of fresh_path = "output/downloaded_paper_" +:+ uuid_hex +:+ ".mmd".
Proof. exact markdown_path_fresh. Qed.

(** ** More on acquisition and conversion *)

Lemma ensure_dir_self p fs :
  is_file fs p = false -> ensure_dir p fs !! p = Some Dir.
Proof.
  unfold is_file, ensure_dir. destruct (fs !! p) as [[]|] eqn:Hp; try done.
  intros _. apply lookup_insert_eq.
Qed.

Lemma write_file_ok p data fs dir :
  path_parent p = Some dir -> fs !! dir = Some Dir -> fs !! p <> Some Dir ->
  write_file p data fs = Ok (tt, <[p := File data]> fs).
Proof.
  intros Hp Hd Hn. unfold write_file. rewrite Hp, Hd.
  by destruct (fs !! p) as [[]|].
Qed.

Lemma write_file_no_folder p data fs dir :
  path_parent p = Some dir -> fs !! dir = None ->
  write_file p data fs = Raise (FileNotFoundError p).
Proof. intros Hp Hd. unfold write_file. by rewrite Hp, Hd. Qed.

Lemma download_accepted pdf_link fs :
  status_code (requests_get pdf_link) = 200 ->
  plain_name uuid_hex = true ->
  fs !! "input" = Some Dir ->
  fs !! fresh_path <> Some Dir ->
  download_pdf_from_url pdf_link fs
  = Ok (fresh_path, <[fresh_path := File (content (requests_get pdf_link))]> fs).
Proof.
  intros Hs Hp Hin Hn. unfold download_pdf_from_url. rewrite Hs. simpl Nat.eqb.
  cbv iota.
  erewrite bind_ok; [reflexivity|].
  apply (write_file_ok _ _ _ "input"); [by apply fresh_path_parent|done|done].
Qed.

(** X10: a download answered with status 200 into an existing [input]
    folder returns the generated name, stores the response body under it
    and leaves every other path as it was. *)
Theorem download_stores_content pdf_link fs :
  status_code (requests_get pdf_link) = 200 ->
  plain_name uuid_hex = true ->
  fs !! "input" = Some Dir ->
  fs !! fresh_path <> Some Dir ->
  exists fs',
    download_pdf_from_url pdf_link fs = Ok (fresh_path, fs')
    /\ read_file fresh_path fs' = Ok (content (requests_get pdf_link), fs')
    /\ forall q, q <> fresh_path -> fs' !! q = fs !! q.
Proof.
  intros Hs Hp Hin Hn. eexists. split; [by apply download_accepted|]. split.
  - unfold read_file. by rewrite lookup_insert_eq.
  - intros q Hq. by rewrite lookup_insert_ne.
Qed.

(** X11: called where no [input] folder exists, a download answered with
    status 200 raises [FileNotFoundError] for the generated name instead of
    returning it. *)
Theorem download_needs_input_folder pdf_link fs :
  status_code (requests_get pdf_link) = 200 ->
  plain_name uuid_hex = true ->
  fs !! "input" = None ->
  download_pdf_from_url pdf_link fs = Raise (FileNotFoundError fresh_path).
Proof.
  intros Hs Hp Hin. unfold download_pdf_from_url. rewrite Hs. simpl Nat.eqb.
  cbv iota. apply bind_raise.
  apply (write_file_no_folder _ _ _ "input"); [by apply fresh_path_parent|done].
Qed.

(** X12: called with neither file nor link, [pdf_to_mmd] has already made
    the [input] and [output] folders when it returns its message; nothing
    else in the file system changes. *)
Theorem no_data_still_makes_folders fs :
  is_file fs "input" = false ->
  is_file fs "output" = false ->
  exists fs',
    pdf_to_mmd None "" fs = Ok (no_data_message, fs')
    /\ fs' !! "input" = Some Dir
    /\ fs' !! "output" = Some Dir
    /\ forall q, q <> "input" -> q <> "output" -> fs' !! q = fs !! q.
Proof.
  intros Hin Hout. exists (ensure_dir "output" (ensure_dir "input" fs)).
  split; [|split; [|split]].
  - unfold pdf_to_mmd.
    rewrite (bind_ok _ _ _ (Return no_data_message)
               (ensure_dir "output" (ensure_dir "input" fs))); [reflexivity|].
    by rewrite (acquire_folders _ _ _ Hin Hout).
  - rewrite ensure_dir_other by done. by apply ensure_dir_self.
  - apply ensure_dir_self. by rewrite is_file_ensure_dir_other.
  - intros q Hq1 Hq2. by rewrite !ensure_dir_other.
Qed.

(** X14: with a link whose download is answered with status 200, and an OCR
    run that leaves [raw] in [output/downloaded_paper_<hex>.mmd],
    [pdf_to_mmd] returns [raw] with its math delimiters switched. *)
Theorem pdf_to_mmd_download_succeeds pdf_link fs fs_ocr raw :
  pdf_link <> "" ->
  status_code (requests_get pdf_link) = 200 ->
  plain_name uuid_hex = true ->
  is_file fs "input" = false ->
  is_file fs "output" = false ->
  fs !! fresh_path <> Some Dir ->
  subprocess_run ["nougat"; "--out"; "output"; "pdf"; fresh_path; "--markdown"]
    (<[fresh_path := File (content (requests_get pdf_link))]>
       (ensure_dir "output" (ensure_dir "input" fs)))
  = Ok (tt, fs_ocr) ->
  fs_ocr !! ("output/downloaded_paper_" +:+ uuid_hex +:+ ".mmd") = Some (File raw) ->
  pdf_to_mmd None pdf_link fs = Ok (switch_math_delimiters raw, fs_ocr).
Proof.
  intros Hl Hs Hp Hin Hout Hn Hrun Hraw.
  unfold pdf_to_mmd. erewrite bind_ok; last first.
  { rewrite (acquire_folders _ _ _ Hin Hout). cbv zeta.
    apply String.eqb_neq in Hl. rewrite Hl.
    rewrite (download_accepted _ _ Hs Hp); [reflexivity| |].
    - rewrite ensure_dir_other by done. by apply ensure_dir_self.
    - rewrite !ensure_dir_other;
        auto using fresh_path_not_input, fresh_path_not_output. }
  set (fs3 := <[fresh_path := _]> _) in *.
  assert (Hex : exists_in fs3 fresh_path = true).
  { unfold exists_in, fs3. by rewrite lookup_insert_eq. }
  unfold convert.
  rewrite (bind_ok _ _ _ _ _ (path_exists_eq _ _)), Hex.
  rewrite (bind_ok _ _ _ _ _ (py_assert_true _ _)).
  erewrite bind_ok; last first.
  { unfold nougat_ocr.
    rewrite (bind_ok _ _ _ _ _ (path_exists_eq _ _)), Hex.
    rewrite (bind_ok _ _ _ _ _ (py_assert_true _ _)). exact Hrun. }
  rewrite (bind_ok _ _ _ _ _ (path_exists_eq _ _)).
  rewrite (markdown_path_fresh Hp) in *.
  unfold exists_in. rewrite Hraw.
  rewrite (bind_ok _ _ _ _ _ (py_assert_true _ _)).
  erewrite bind_ok; [reflexivity|]. unfold read_file. by rewrite Hraw.
Qed.

Lemma mkdir_taken p fs :
  is_file fs p = true -> mkdir p fs = Raise (FileExistsError p).
Proof. unfold is_file, mkdir. by destruct (fs !! p) as [[]|]. Qed.

(** X15: when [input] or [output] names a regular file, [pdf_to_mmd] raises
    [FileExistsError] for it before looking at its arguments. *)
Theorem folder_name_taken pdf_file pdf_link fs :
  is_file fs "input" = true \/ is_file fs "output" = true ->
  exists p,
    (p = "input" \/ p = "output")
    /\ is_file fs p = true
    /\ pdf_to_mmd pdf_file pdf_link fs = Raise (FileExistsError p).
Proof.
  intros Htaken. unfold pdf_to_mmd, acquire.
  destruct (is_file fs "input") eqn:Hin.
  - exists "input". split; [by left|]. split; [done|].
    apply bind_raise, bind_raise. by apply mkdir_taken.
  - destruct Htaken as [|Hout]; [discriminate|].
    exists "output". split; [by right|]. split; [done|].
    apply bind_raise.
    rewrite (bind_ok _ _ _ _ _ (mkdir_ensure _ _ Hin)).
    apply bind_raise, mkdir_taken. by rewrite is_file_ensure_dir_other.
Qed.

(** X16: with an uploaded file, whatever its path and whatever the link,
    [pdf_to_mmd] raises the assertion error for the name
    "not yet implemented" unless a path of that name exists. *)
Theorem upload_always_rejected uploaded pdf_link fs :
  is_file fs "input" = false ->
  is_file fs "output" = false ->
  exists_in fs "not yet implemented" = false ->
  pdf_to_mmd (Some uploaded) pdf_link fs
  = Raise (AssertionError "File not yet implemented does not exist").
Proof.
  intros Hin Hout Hex. unfold pdf_to_mmd.
  rewrite (bind_ok _ _ _ (Continue "not yet implemented")
             (ensure_dir "output" (ensure_dir "input" fs)));
    [|by rewrite (acquire_folders _ _ _ Hin Hout)].
  apply convert_missing. by rewrite !exists_in_ensure_dir_other.
Qed.

(** ** More on the two streams *)

Lemma stream_loop_prefix acc chunks e :
  In e (fst (stream_loop acc chunks)) ->
  String.prefix e (acc +:+ Py.join chunks) = true.
Proof.
  revert acc. induction chunks as [|c cs IH]; intros acc; [by intros []|].
  simpl. pose proof (IH (acc +:+ c)) as IH'.
  destruct (stream_loop (acc +:+ c) cs) as [ys fin]. simpl in *.
  rewrite <- append_assoc. intros [<-|Hin]; [apply prefix_append|by apply IH'].
Qed.

Lemma summary_loop_prefix summary splits e :
  In e (fst (summary_loop summary splits)) ->
  String.prefix e (summary +:+ combined splits) = true.
Proof.
  revert summary. induction splits as [|d rest IH]; intros summary; [by intros []|].
  rewrite summary_loop_cons. cbv zeta. simpl fst.
  rewrite combined_cons, <- !append_assoc.
  intros [Hin|Hin]%in_app_or.
  - apply (prefix_trans _ _ _ (stream_loop_prefix _ _ _ Hin)), prefix_append.
  - by apply IH.
Qed.

(** The value yielded after chunk [j] of [split]. *)
Lemma generate_individual_summary_lookup parsed_output pre split post j :
  split_text parsed_output = (pre ++ split :: post)%list ->
  1 <= j <= length (chunks_of split) ->
  generate_individual_summary parsed_output !! (yielded_by pre + j - 1)
  = Some (combined pre +:+ header_to_append (metadata split)
          +:+ partial_summary split j).
Proof.
  intros Hsplit [Hj1 Hj2].
  unfold generate_individual_summary. rewrite Hsplit, summary_loop_app.
  rewrite lookup_app_r by (rewrite summary_loop_length; lia).
  rewrite summary_loop_length, summary_loop_cons. cbv zeta. simpl fst.
  rewrite lookup_app_l by (rewrite stream_loop_length; lia).
  rewrite stream_loop_lookup by lia.
  replace (S (yielded_by pre + j - 1 - yielded_by pre)) with j by lia.
  unfold partial_summary. simpl. by rewrite append_assoc.
Qed.

Lemma yielded_by_app pre post :
  yielded_by (pre ++ post)%list = yielded_by pre + yielded_by post.
Proof. unfold yielded_by. by rewrite map_app, concat_app, length_app. Qed.

(** The last value yielded when the last split streams something. *)
Lemma generate_individual_summary_last parsed_output pre split :
  split_text parsed_output = (pre ++ [split])%list ->
  chunks_of split <> [] ->
  last (generate_individual_summary parsed_output)
  = Some (combined (split_text parsed_output)).
Proof.
  intros Hsplit Hne.
  assert (Hlen : 1 <= length (chunks_of split)).
  { destruct (chunks_of split); [done|simpl; lia]. }
  rewrite last_lookup.
  assert (Hn : length (generate_individual_summary parsed_output)
               = yielded_by pre + length (chunks_of split)).
  { unfold generate_individual_summary.
    rewrite summary_loop_length, Hsplit, yielded_by_app.
    unfold yielded_by at 2. simpl. by rewrite app_nil_r. }
  rewrite Hn.
  replace (Init.Nat.pred (yielded_by pre + length (chunks_of split)))
    with (yielded_by pre + length (chunks_of split) - 1) by lia.
  rewrite (generate_individual_summary_lookup _ pre split [] _ Hsplit) by lia.
  f_equal. rewrite Hsplit, combined_app, combined_cons.
  unfold partial_summary. rewrite firstn_all.
  unfold combined at 3. simpl Py.join. by rewrite append_nil_r.
Qed.


(** X5: [generate_individual_summary] yields once for every chunk streamed
    for every section, and at no other moment. *)
Theorem individual_summary_count parsed_output :
  length (generate_individual_summary parsed_output)
  = length (concat (map chunks_of (split_text parsed_output))).
Proof. apply summary_loop_length. Qed.

(** X6: every value [generate_individual_summary] yields is a prefix of the
    complete combined text of all sections. *)
Theorem individual_summary_prefix_of_combined parsed_output e :
  In e (generate_individual_summary parsed_output) ->
  String.prefix e (combined (split_text parsed_output)) = true.
Proof. intros Hin. exact (summary_loop_prefix "" _ _ Hin). Qed.

(** X7: when the last section streams at least one chunk, the last value
    [generate_individual_summary] yields is the complete combined text. *)
Theorem individual_summary_ends_combined parsed_output pre split :
  split_text parsed_output = (pre ++ [split])%list ->
  chunks_of split <> [] ->
  last (generate_individual_summary parsed_output)
  = Some (combined (split_text parsed_output)).
Proof. apply generate_individual_summary_last. Qed.

(** X8: [generate_final_summary] yields once per chunk; the value yielded
    after chunk [i] (counted from zero) is the concatenation of the chunks up
    to it. *)
Theorem final_summary_values individual_summaries i :
  i < length (final_summary_chain_stream individual_summaries) ->
  length (generate_final_summary individual_summaries)
  = length (final_summary_chain_stream individual_summaries)
  /\ generate_final_summary individual_summaries !! i
     = Some (Py.join (take (S i) (final_summary_chain_stream individual_summaries))).
Proof.
  intros Hi. unfold generate_final_summary. split.
  - apply stream_loop_length.
  - by rewrite stream_loop_lookup.
Qed.


(** ** Failures of the OCR step after a download *)

(** After an accepted download, [pdf_to_mmd] goes on with the conversion of
    the stored file. *)
Lemma pdf_to_mmd_after_download pdf_link fs :
  pdf_link <> "" ->
  status_code (requests_get pdf_link) = 200 ->
  plain_name uuid_hex = true ->
  is_file fs "input" = false ->
  is_file fs "output" = false ->
  fs !! fresh_path <> Some Dir ->
  pdf_to_mmd None pdf_link fs
  = convert fresh_path
      (<[fresh_path := File (content (requests_get pdf_link))]>
         (ensure_dir "output" (ensure_dir "input" fs))).
Proof.
  intros Hl Hs Hp Hin Hout Hn. unfold pdf_to_mmd.
  erewrite bind_ok; last first.
  { rewrite (acquire_folders _ _ _ Hin Hout). cbv zeta.
    apply String.eqb_neq in Hl. rewrite Hl.
    rewrite (download_accepted _ _ Hs Hp); [reflexivity| |].
    - rewrite ensure_dir_other by done. by apply ensure_dir_self.
    - rewrite !ensure_dir_other;
        auto using fresh_path_not_input, fresh_path_not_output. }
  reflexivity.
Qed.

Lemma convert_runs_ocr file_name fs :
  exists_in fs file_name = true ->
  convert file_name fs
  = match subprocess_run
            ["nougat"; "--out"; "output"; "pdf"; file_name; "--markdown"] fs with
    | Ok (_, fs1) =>
        if exists_in fs1 (markdown_path_of file_name)
        then match read_file (markdown_path_of file_name) fs1 with
             | Ok (raw, fs2) => Ok (switch_math_delimiters raw, fs2)
             | Raise e => Raise e
             end
        else Raise (AssertionError
                      ("File " +:+ markdown_path_of file_name +:+ " does not exist"))
    | Raise e => Raise e
    end.
Proof.
  intros Hex. unfold convert.
  rewrite (bind_ok _ _ _ _ _ (path_exists_eq _ _)), Hex.
  rewrite (bind_ok _ _ _ _ _ (py_assert_true _ _)).
  rewrite bind_eq. unfold nougat_ocr.
  rewrite (bind_ok _ _ _ _ _ (path_exists_eq _ _)), Hex.
  rewrite (bind_ok _ _ _ _ _ (py_assert_true _ _)).
  destruct (subprocess_run _ fs) as [[[] fs1]|e]; [|reflexivity].
  rewrite (bind_ok _ _ _ _ _ (path_exists_eq _ _)).
  destruct (exists_in fs1 (markdown_path_of file_name)).
  - rewrite (bind_ok _ _ _ _ _ (py_assert_true _ _)). rewrite bind_eq.
    by destruct (read_file _ fs1) as [[raw fs2]|].
  - by rewrite (bind_raise _ _ _ _ (py_assert_false _ _)).
Qed.

(** X17: after an accepted download, an OCR run that ends without leaving
    [output/downloaded_paper_<hex>.mmd] makes [pdf_to_mmd] raise the
    assertion error that names this markup file. *)
Theorem missing_markup_is_named pdf_link fs fs_ocr :
  pdf_link <> "" ->
  status_code (requests_get pdf_link) = 200 ->
  plain_name uuid_hex = true ->
  is_file fs "input" = false ->
  is_file fs "output" = false ->
  fs !! fresh_path <> Some Dir ->
  subprocess_run ["nougat"; "--out"; "output"; "pdf"; fresh_path; "--markdown"]
    (<[fresh_path := File (content (requests_get pdf_link))]>
       (ensure_dir "output" (ensure_dir "input" fs)))
  = Ok (tt, fs_ocr) ->
  fs_ocr !! ("output/downloaded_paper_" +:+ uuid_hex +:+ ".mmd") = None ->
  pdf_to_mmd None pdf_link fs
  = Raise (AssertionError
             ("File output/downloaded_paper_" +:+ uuid_hex +:+ ".mmd does not exist")).
Proof.
  intros Hl Hs Hp Hin Hout Hn Hrun Hnone.
  rewrite (pdf_to_mmd_after_download _ _ Hl Hs Hp Hin Hout Hn).
  rewrite convert_runs_ocr by (unfold exists_in; by rewrite lookup_insert_eq).
  rewrite Hrun, (markdown_path_fresh Hp). unfold exists_in.
  rewrite Hnone. by rewrite !append_assoc.
Qed.

(** X18: after an accepted download, an error raised when the OCR command
    is launched is what [pdf_to_mmd] raises. *)
Theorem ocr_launch_error_propagates pdf_link fs e :
  pdf_link <> "" ->
  status_code (requests_get pdf_link) = 200 ->
  plain_name uuid_hex = true ->
  is_file fs "input" = false ->
  is_file fs "output" = false ->
  fs !! fresh_path <> Some Dir ->
  subprocess_run ["nougat"; "--out"; "output"; "pdf"; fresh_path; "--markdown"]
    (<[fresh_path := File (content (requests_get pdf_link))]>
       (ensure_dir "output" (ensure_dir "input" fs)))
  = Raise e ->
  pdf_to_mmd None pdf_link fs = Raise e.
Proof.
  intros Hl Hs Hp Hin Hout Hn Hrun.
  rewrite (pdf_to_mmd_after_download _ _ Hl Hs Hp Hin Hout Hn).
  rewrite convert_runs_ocr by (unfold exists_in; by rewrite lookup_insert_eq).
  by rewrite Hrun.
Qed.

End Program.

(** ** The Structure Splitter *)

Lemma split_from_bodies doc hp cur :
  concat (map Splitter.body (Splitter.split_from hp cur doc))
  = (cur ++ Splitter.content_lines doc)%list.
Proof.
  revert hp cur. induction doc as [|line rest IH]; intros hp cur.
  - simpl. by rewrite !app_nil_r.
  - unfold Splitter.content_lines, Splitter.is_header in *. simpl.
    destruct (Splitter.header_of_line line) as [[l text]|]; simpl.
    + by rewrite IH.
    + by rewrite IH, <- app_assoc.
Qed.

Lemma split_from_plain doc hp cur :
  (forall line, In line doc -> Splitter.is_header line = false) ->
  Splitter.split_from hp cur doc = [Splitter.mkSection hp (cur ++ doc)%list].
Proof.
  revert cur. induction doc as [|line rest IH]; intros cur Hplain.
  - simpl. by rewrite app_nil_r.
  - simpl. pose proof (Hplain line (or_introl eq_refl)) as Hline.
    unfold Splitter.is_header in Hline.
    destruct (Splitter.header_of_line line); [discriminate|].
    rewrite IH, <- app_assoc; [reflexivity|].
    intros l Hin. apply Hplain. by right.
Qed.

(** Dropping an empty leading section keeps the other sections. *)
Lemma split_sections doc s :
  In s (Splitter.split doc) -> In s (Splitter.split_from [] [] doc).
Proof.
  unfold Splitter.split.
  destruct (Splitter.split_from [] [] doc) as [|[hp [|b bs]] [|s2 rest]]; auto.
  intros Hin. by right.
Qed.

Lemma increasing_weaken a b ns :
  a <= b -> increasing b ns = true -> increasing a ns = true.
Proof.
  destruct ns as [|n ns]; [done|]. simpl.
  intros Hab [Hb H]%andb_prop. apply Nat.ltb_lt in Hb.
  rewrite H, andb_true_r. apply Nat.ltb_lt. lia.
Qed.

Lemma increasing_set n ns a :
  a < n -> increasing a ns = true ->
  increasing a (List.filter (fun m => (m <? n)%nat) ns ++ [n])%list = true.
Proof.
  revert a. induction ns as [|m ns IH]; intros a Han Hinc; simpl.
  - rewrite andb_true_r. by apply Nat.ltb_lt.
  - simpl in Hinc. apply andb_prop in Hinc as [Ham Hinc].
    destruct (m <? n)%nat eqn:Hmn; simpl.
    + rewrite Ham. apply IH; [by apply Nat.ltb_lt|exact Hinc].
    + apply IH; [exact Han|].
      apply Nat.ltb_lt in Ham. apply (increasing_weaken a m); [lia|exact Hinc].
Qed.

Lemma levels_increasing_keys above (hp : Splitter.header_path) :
  levels_increasing above (map (fun e => Splitter.header_key (fst e)) hp)
  = increasing above (map (fun e => Splitter.level_nat (fst e)) hp).
Proof.
  revert above. induction hp as [|[l text] hp IH]; intros above; [done|].
  simpl. rewrite <- IH. by destruct l.
Qed.

Lemma set_header_increasing hp l text :
  increasing 0 (map (fun e => Splitter.level_nat (fst e)) hp) = true ->
  increasing 0 (map (fun e => Splitter.level_nat (fst e))
                    (Splitter.set_header hp l text)) = true.
Proof.
  intros Hinc. unfold Splitter.set_header. rewrite map_app. simpl.
  assert (Hfilter : forall hp0 : Splitter.header_path,
    map (fun e => Splitter.level_nat (fst e))
        (List.filter (fun e => (Splitter.level_nat (fst e) <? Splitter.level_nat l)%nat) hp0)
    = List.filter (fun m => (m <? Splitter.level_nat l)%nat)
                  (map (fun e => Splitter.level_nat (fst e)) hp0)).
  { induction hp0 as [|[l0 t0] hp0 IH0]; [done|]. simpl.
    destruct (Splitter.level_nat l0 <? Splitter.level_nat l)%nat; simpl;
      by rewrite IH0. }
  rewrite Hfilter. apply increasing_set; [destruct l; simpl; lia|exact Hinc].
Qed.

Lemma split_from_paths doc hp cur s :
  increasing 0 (map (fun e => Splitter.level_nat (fst e)) hp) = true ->
  In s (Splitter.split_from hp cur doc) ->
  increasing 0 (map (fun e => Splitter.level_nat (fst e)) (Splitter.path s)) = true.
Proof.
  revert hp cur. induction doc as [|line rest IH]; intros hp cur Hinc; simpl.
  - by intros [<-|[]].
  - destruct (Splitter.header_of_line line) as [[l text]|].
    + intros [<-|Hin]; [exact Hinc|].
      apply (IH _ _ (set_header_increasing _ l text Hinc) Hin).
    + apply IH, Hinc.
Qed.

(** Every document of the splitter carries a header path in level order. *)
Lemma split_text_paths_ok text d :
  In d (Splitter.split_text text) -> header_path_ok (metadata d) = true.
Proof.
  unfold Splitter.split_text. intros (s & <- & Hin)%in_map_iff.
  unfold header_path_ok, keys, Splitter.to_document. simpl.
  rewrite map_map. simpl. rewrite levels_increasing_keys.
  by apply (split_from_paths (Splitter.split_nl text) [] [] s), split_sections.
Qed.

(** C4: the bodies of the sections the splitter yields, concatenated in
    order, are the lines of the document that are not headers, in order. *)
Theorem split_bodies_partition (doc : list string) :
  concat (map Splitter.body (Splitter.split doc)) = Splitter.content_lines doc.
Proof.
  rewrite <- (app_nil_l (Splitter.content_lines doc)).
  rewrite <- (split_from_bodies doc [] []). unfold Splitter.split.
  by destruct (Splitter.split_from [] [] doc) as [|[hp [|b bs]] [|s2 rest]].
Qed.

(** C5: a document without header lines is split into exactly one section,
    with an empty header path and the whole document as its body. *)
Theorem split_without_headers (doc : list string) :
  (forall line, In line doc -> Splitter.is_header line = false) ->
  Splitter.split doc = [Splitter.mkSection [] doc].
Proof.
  intros Hplain. unfold Splitter.split.
  rewrite (split_from_plain doc [] [] Hplain). simpl. by destruct doc.
Qed.

(** ** Runs in the sample worlds *)

(** C8: an uploaded file that exists is not ingested: [pdf_to_mmd] looks for
    a file called "not yet implemented" instead and its assertion fails,
    whatever the upload and the link are. *)
Theorem upload_not_ingested :
  exists_in Demo.upload_fs "/tmp/gradio/paper.pdf" = true
  /\ pdf_to_mmd Demo.hex Demo.ok_response Demo.ocr_writes
       (Some "/tmp/gradio/paper.pdf") "" Demo.upload_fs
     = Raise (AssertionError "File not yet implemented does not exist")
  /\ pdf_to_mmd Demo.hex Demo.ok_response Demo.ocr_writes
       (Some "/tmp/gradio/paper.pdf") Demo.link Demo.upload_fs
     = Raise (AssertionError "File not yet implemented does not exist").
Proof. by vm_compute. Qed.

(** *** Runs that meet the hypotheses of the statements above *)

Lemma combined_summary_progress_witness :
  Splitter.split_text Demo.paper
  = ([Demo.preface_doc] ++ Demo.a_doc :: [Demo.b_doc])%list
  /\ 1 <= 2 <= length (chunks_of Demo.dumps Demo.bullets Demo.a_doc)
  /\ generate_individual_summary Splitter.split_text Demo.dumps Demo.bullets Demo.paper
       !! (yielded_by Demo.dumps Demo.bullets [Demo.preface_doc] + 2 - 1)
     = Some (combined Demo.dumps Demo.bullets [Demo.preface_doc; Demo.a_doc]).
Proof.
  split; [reflexivity|]. split; [vm_compute; lia|].
  apply (combined_summary_progress Splitter.split_text Demo.dumps Demo.bullets
           Demo.paper [Demo.preface_doc] Demo.a_doc [Demo.b_doc] 2);
    [reflexivity|vm_compute; lia|reflexivity].
Defined.



Lemma split_without_headers_witness :
  (forall line, In line ["abstract"; "no headings here"] ->
                Splitter.is_header line = false)
  /\ Splitter.split ["abstract"; "no headings here"]
     = [Splitter.mkSection [] ["abstract"; "no headings here"]].
Proof.
  assert (Hplain : forall line, In line ["abstract"; "no headings here"] ->
                                Splitter.is_header line = false).
  { intros line [<-|[<-|[]]]; reflexivity. }
  split; [exact Hplain|]. exact (split_without_headers _ Hplain).
Defined.

Lemma conversion_failure_stops_chain_witness :
  acquire Demo.hex Demo.ok_response None Demo.link Demo.empty_fs
  = Ok (Continue Demo.pdf_path, Demo.downloaded)
  /\ ocr_leaves_nothing Demo.ocr_silent Demo.pdf_path Demo.downloaded = true
  /\ exists e,
       pdf_to_mmd Demo.hex Demo.ok_response Demo.ocr_silent None Demo.link Demo.empty_fs
       = Raise e
       /\ btn_click Demo.hex Demo.ok_response Demo.ocr_silent Splitter.split_text
            Demo.dumps Demo.bullets (Demo.bullets "") Demo.start_panes None Demo.link
            Demo.empty_fs
          = {| invoked := [PdfToMmd]; sections := []; shown := Demo.start_panes;
               failure := Some e |}.
Proof.
  assert (Hacq : acquire Demo.hex Demo.ok_response None Demo.link Demo.empty_fs
                 = Ok (Continue Demo.pdf_path, Demo.downloaded))
    by (vm_compute; reflexivity).
  assert (Hocr : ocr_leaves_nothing Demo.ocr_silent Demo.pdf_path Demo.downloaded = true)
    by (vm_compute; reflexivity).
  split; [exact Hacq|]. split; [exact Hocr|].
  exact (conversion_failure_stops_chain Demo.hex Demo.ok_response Demo.ocr_silent
           Splitter.split_text Demo.dumps Demo.bullets (Demo.bullets "")
           Demo.start_panes None Demo.link Demo.empty_fs Demo.pdf_path
           Demo.downloaded Hacq Hocr).
Defined.



Lemma pdf_to_mmd_switches_delimiters_witness :
  (@None string = None -> Demo.link <> "")
  /\ pdf_to_mmd Demo.hex Demo.ok_response Demo.ocr_writes None Demo.link Demo.empty_fs
     = Ok ("# Title" +:+ Py.nl +:+ "Energy $E$", Demo.converted)
  /\ exists raw,
       Demo.converted !! markdown_path_of (file_name_for Demo.hex None)
       = Some (File raw)
       /\ "# Title" +:+ Py.nl +:+ "Energy $E$"
          = Py.replace (Py.replace (Py.replace (Py.replace raw "\(" "$") "\)" "$")
                          "\[" "$$") "\]" "$$"
       /\ "# Title" +:+ Py.nl +:+ "Energy $E$" = math_delimiters_one_pass raw.
Proof.
  assert (Hdoc : @None string = None -> Demo.link <> "") by (intros _; discriminate).
  assert (Hrun : pdf_to_mmd Demo.hex Demo.ok_response Demo.ocr_writes None Demo.link
                   Demo.empty_fs
                 = Ok ("# Title" +:+ Py.nl +:+ "Energy $E$", Demo.converted))
    by (vm_compute; reflexivity).
  split; [exact Hdoc|]. split; [exact Hrun|].
  exact (pdf_to_mmd_switches_delimiters Demo.hex Demo.ok_response Demo.ocr_writes
           None Demo.link Demo.empty_fs _ _ Hdoc Hrun).
Defined.

(** *** Runs that separate the statements from their stronger readings *)



(** *** Further runs *)

Example switch_inline :
  switch_math_delimiters "a \(x\) and \[y\]" = "a $x$ and $$y$$".
Proof. reflexivity. Qed.

Example switch_double_backslash :
  switch_math_delimiters "\\()" = "\$)".
Proof. reflexivity. Qed.

Example split_three_headers :
  map Splitter.path (Splitter.split ["# A"; "## B"; "### C"])
  = [[(Splitter.L1, "A")];
     [(Splitter.L1, "A"); (Splitter.L2, "B")];
     [(Splitter.L1, "A"); (Splitter.L2, "B"); (Splitter.L3, "C")]].
Proof. reflexivity. Qed.

Example split_clears_deeper :
  map Splitter.path (Splitter.split ["# A"; "### C"; "## D"])
  = [[(Splitter.L1, "A")];
     [(Splitter.L1, "A"); (Splitter.L3, "C")];
     [(Splitter.L1, "A"); (Splitter.L2, "D")]].
Proof. reflexivity. Qed.

Example individual_summary_run :
  generate_individual_summary Splitter.split_text Demo.dumps Demo.bullets
    "# A" = [Py.nl +:+ "# A" +:+ Py.nl +:+ "* ";
             Py.nl +:+ "# A" +:+ Py.nl +:+ "* "].
Proof. reflexivity. Qed.

Example stem_of_download : stem Demo.pdf_path = "downloaded_paper_0123456789abcdef0123456789abcdef".
Proof. reflexivity. Qed.

Example ocr_cannot_start :
  btn_click Demo.hex Demo.ok_response Demo.ocr_missing Splitter.split_text
    Demo.dumps Demo.bullets (Demo.bullets "") Demo.start_panes None Demo.link
    Demo.empty_fs
  = {| invoked := [PdfToMmd]; sections := []; shown := Demo.start_panes;
       failure := Some (SubprocessError "nougat: command not found") |}.
Proof. by vm_compute. Qed.

(** ** More on the math delimiters *)

Lemma lookup_delim_in b tbl v :
  lookup_delim b tbl = Some v -> exists k, In (k, v) tbl.
Proof.
  induction tbl as [|[k w] tbl IH]; simpl; [discriminate|].
  destruct (Ascii.eqb b k).
  - intros [= <-]. exists k. by left.
  - intros [k' Hk']%IH. exists k'. by right.
Qed.

Lemma inert_value tbl b v :
  inert tbl = true -> lookup_delim b tbl = Some v ->
  no_backslash v = true
  /\ exists x v', v = String x v' /\ listed x tbl = false.
Proof.
  unfold inert. rewrite forallb_forall. intros Hin [k Hk]%lookup_delim_in.
  specialize (Hin _ Hk). simpl in Hin. apply andb_prop in Hin as [Hn Hx].
  split; [exact Hn|]. destruct v as [|x v']; [discriminate|].
  exists x, v'. split; [reflexivity|]. by apply negb_true_iff.
Qed.

Lemma one_pass_nonempty tbl b r :
  inert tbl = true -> listed b tbl = false ->
  exists x y, one_pass tbl (String b r) = String x y /\ listed x tbl = false.
Proof.
  intros Hin Hb. destruct r as [|b' r]; simpl; [by eauto|].
  destruct (Ascii.eqb b "\"); [|by eauto].
  destruct (lookup_delim b' tbl) as [v|] eqn:Hl; [|by eauto].
  destruct (inert_value _ _ _ Hin Hl) as (_ & x & v' & -> & Hx).
  simpl. by eauto.
Qed.

Lemma one_pass_idempotent tbl :
  inert tbl = true ->
  forall s, one_pass tbl (one_pass tbl s) = one_pass tbl s.
Proof.
  intros Hin. induction s as [|a|a b s IH1 IH2] using string_ind2;
    [reflexivity|reflexivity|].
  destruct (Ascii.eqb a "\") eqn:Ha.
  - apply Ascii.eqb_eq in Ha as ->.
    change (one_pass tbl (String "\" (String b s))) with
      (match lookup_delim b tbl with
       | Some v => v +:+ one_pass tbl s
       | None => String "\" (one_pass tbl (String b s))
       end).
    destruct (lookup_delim b tbl) as [v|] eqn:Hl.
    + destruct (inert_value _ _ _ Hin Hl) as (Hn & _).
      by rewrite one_pass_text, IH1.
    + assert (Hb : listed b tbl = false) by (unfold listed; by rewrite Hl).
      destruct (one_pass_nonempty tbl b s Hin Hb) as (x & y & Hxy & Hx).
      rewrite Hxy. unfold listed in Hx.
      change (one_pass tbl (String "\" (String x y))) with
        (match lookup_delim x tbl with
         | Some v => v +:+ one_pass tbl y
         | None => String "\" (one_pass tbl (String x y))
         end).
      destruct (lookup_delim x tbl); [discriminate|].
      by rewrite <- Hxy, IH2.
  - rewrite (one_pass_other tbl a _ Ha), (one_pass_other tbl a _ Ha).
    by rewrite IH2.
Qed.

Lemma one_pass_plain tbl s :
  no_backslash s = true -> one_pass tbl s = s.
Proof.
  intros Hs. rewrite <- (append_nil_r s) at 1.
  by rewrite one_pass_text, append_nil_r.
Qed.

Lemma short_value tbl b v :
  short_values tbl = true -> lookup_delim b tbl = Some v -> String.length v <= 2.
Proof.
  unfold short_values. rewrite forallb_forall. intros Hs [k Hk]%lookup_delim_in.
  specialize (Hs _ Hk). by apply Nat.leb_le in Hs.
Qed.

Lemma one_pass_length tbl :
  short_values tbl = true ->
  forall s, String.length (one_pass tbl s) <= String.length s.
Proof.
  intros Hs. induction s as [|a|a b s IH1 IH2] using string_ind2;
    [done|done|].
  destruct (Ascii.eqb a "\") eqn:Ha.
  - apply Ascii.eqb_eq in Ha as ->.
    change (one_pass tbl (String "\" (String b s))) with
      (match lookup_delim b tbl with
       | Some v => v +:+ one_pass tbl s
       | None => String "\" (one_pass tbl (String b s))
       end).
    destruct (lookup_delim b tbl) as [v|] eqn:Hl.
    + pose proof (short_value _ _ _ Hs Hl). rewrite length_append. simpl. lia.
    + simpl in *. lia.
  - rewrite (one_pass_other tbl a _ Ha). simpl in *. lia.
Qed.

(** X1: switching the delimiters twice is switching them once: in the text
    [pdf_to_mmd] returns a second pass finds nothing left to rewrite. *)
Theorem switch_math_delimiters_idempotent (content : string) :
  switch_math_delimiters (switch_math_delimiters content)
  = switch_math_delimiters content.
Proof.
  rewrite !switch_math_delimiters_one_pass.
  by apply one_pass_idempotent.
Qed.

(** X2: text without a backslash is returned as it is. *)
Theorem switch_math_delimiters_plain (content : string) :
  no_backslash content = true -> switch_math_delimiters content = content.
Proof.
  intros Hs. rewrite switch_math_delimiters_one_pass. by apply one_pass_plain.
Qed.

(** X3: switching the delimiters never makes the text longer. *)
Theorem switch_math_delimiters_length (content : string) :
  String.length (switch_math_delimiters content) <= String.length content.
Proof.
  rewrite switch_math_delimiters_one_pass. by apply one_pass_length.
Qed.

(** ** More on the reconstructed header *)

Lemma dict_get_app (d1 d2 : dict) key :
  dict_get (d1 ++ d2)%list key
  = match dict_get d1 key with
    | Some v => Some v
    | None => dict_get d2 key
    end.
Proof.
  induction d1 as [|[k v] d1 IH]; simpl; [reflexivity|].
  by destruct (String.eqb k key).
Qed.

Lemma unique_keys_before (d1 d2 : dict) k v :
  unique_keys (d1 ++ (k, v) :: d2)%list = true -> dict_get d1 k = None.
Proof.
  induction d1 as [|[k0 v0] d1 IH]; simpl; [reflexivity|].
  intros [Hk0 Hu]%andb_prop. apply negb_true_iff in Hk0.
  unfold has_key in Hk0. rewrite dict_get_app in Hk0.
  destruct (String.eqb k0 k) eqn:Hk; [|by apply IH].
  apply String.eqb_eq in Hk as ->.
  destruct (dict_get d1 k); [discriminate|].
  simpl in Hk0. by rewrite String.eqb_refl in Hk0.
Qed.

Lemma header_step_other md acc key :
  key_level key = None -> header_step md acc key = acc.
Proof.
  unfold key_level, header_step.
  by destruct (String.eqb key "Header 1"), (String.eqb key "Header 2"),
    (String.eqb key "Header 3").
Qed.

(** The loop over the keys, started anywhere in the dictionary. *)
Lemma header_fold (before rest : dict) acc :
  unique_keys (before ++ rest)%list = true ->
  fold_left (header_step (before ++ rest)%list) (keys rest) acc
  = match last_configured rest with
    | Some (n, text) => Py.nl +:+ marker n +:+ " " +:+ text +:+ Py.nl
    | None => acc
    end.
Proof.
  revert before acc. induction rest as [|[k v] rest IH]; intros before acc Hu;
    [reflexivity|].
  assert (Hget : getitem (before ++ (k, v) :: rest)%list k = v).
  { unfold getitem. rewrite dict_get_app, (unique_keys_before _ _ _ _ Hu).
    simpl. by rewrite String.eqb_refl. }
  simpl fold_left. simpl last_configured.
  replace (before ++ (k, v) :: rest)%list
    with ((before ++ [(k, v)]) ++ rest)%list in * by (by rewrite <- app_assoc).
  rewrite IH by exact Hu.
  destruct (last_configured rest) as [[n text]|]; [reflexivity|].
  destruct (key_level k) as [n|] eqn:Hk.
  - by rewrite (header_step_level _ _ _ _ Hk), Hget.
  - by apply header_step_other.
Qed.

(** X4: the header put before a section's summary is decided by the last
    entry of the metadata, in insertion order, whose key is "Header 1",
    "Header 2" or "Header 3", whatever its level; with no such entry nothing
    is put there. *)
Theorem header_to_append_last_configured (md : dict) :
  unique_keys md = true ->
  header_to_append md
  = match last_configured md with
    | Some (n, text) => Py.nl +:+ marker n +:+ " " +:+ text +:+ Py.nl
    | None => ""
    end.
Proof. intros Hu. exact (header_fold [] md "" Hu). Qed.

(** *** Runs that meet the hypotheses of the further statements *)

Lemma switch_math_delimiters_plain_witness :
  no_backslash "a plain abstract" = true
  /\ switch_math_delimiters "a plain abstract" = "a plain abstract".
Proof.
  refine (conj eq_refl _).
  exact (switch_math_delimiters_plain "a plain abstract" eq_refl).
Defined.

Lemma header_to_append_last_configured_witness :
  unique_keys Demo.reversed_md = true
  /\ header_to_append Demo.reversed_md = Py.nl +:+ "# A" +:+ Py.nl.
Proof.
  refine (conj eq_refl _).
  exact (header_to_append_last_configured Demo.reversed_md eq_refl).
Defined.

Lemma individual_summary_prefix_of_combined_witness :
  In "* preface"
     (generate_individual_summary Splitter.split_text Demo.dumps Demo.bullets Demo.paper)
  /\ String.prefix "* preface"
       (combined Demo.dumps Demo.bullets (Splitter.split_text Demo.paper)) = true.
Proof.
  assert (Hin : In "* preface"
                   (generate_individual_summary Splitter.split_text Demo.dumps
                      Demo.bullets Demo.paper))
    by (vm_compute; right; left; reflexivity).
  refine (conj Hin _).
  exact (individual_summary_prefix_of_combined Splitter.split_text Demo.dumps
           Demo.bullets Demo.paper "* preface" Hin).
Defined.

Lemma individual_summary_ends_combined_witness :
  Splitter.split_text Demo.paper
  = ([Demo.preface_doc; Demo.a_doc] ++ [Demo.b_doc])%list
  /\ chunks_of Demo.dumps Demo.bullets Demo.b_doc <> []
  /\ last (generate_individual_summary Splitter.split_text Demo.dumps Demo.bullets
             Demo.paper)
     = Some (combined Demo.dumps Demo.bullets (Splitter.split_text Demo.paper)).
Proof.
  assert (Hne : chunks_of Demo.dumps Demo.bullets Demo.b_doc <> []) by discriminate.
  refine (conj eq_refl (conj Hne _)).
  exact (individual_summary_ends_combined Splitter.split_text Demo.dumps Demo.bullets
           Demo.paper [Demo.preface_doc; Demo.a_doc] Demo.b_doc eq_refl Hne).
Defined.

Lemma final_summary_values_witness :
  1 < length (Demo.padded "docs")
  /\ length (generate_final_summary Demo.padded "docs") = length (Demo.padded "docs")
  /\ generate_final_summary Demo.padded "docs" !! 1
     = Some (Py.join (take 2 (Demo.padded "docs"))).
Proof.
  assert (Hi : 1 < length (Demo.padded "docs")) by (simpl; lia).
  refine (conj Hi _).
  exact (final_summary_values Demo.padded "docs" 1 Hi).
Defined.


Lemma download_stores_content_witness :
  status_code (Demo.ok_response Demo.link) = 200
  /\ plain_name Demo.hex = true
  /\ Demo.folders !! "input" = Some Dir
  /\ Demo.folders !! fresh_path Demo.hex <> Some Dir
  /\ exists fs',
       download_pdf_from_url Demo.hex Demo.ok_response Demo.link Demo.folders
       = Ok (fresh_path Demo.hex, fs')
       /\ read_file (fresh_path Demo.hex) fs'
          = Ok (content (Demo.ok_response Demo.link), fs')
       /\ forall q, q <> fresh_path Demo.hex -> fs' !! q = Demo.folders !! q.
Proof.
  assert (Hin : Demo.folders !! "input" = Some Dir) by (vm_compute; reflexivity).
  assert (Hn : Demo.folders !! fresh_path Demo.hex <> Some Dir)
    by (vm_compute; discriminate).
  refine (conj eq_refl (conj eq_refl (conj Hin (conj Hn _)))).
  exact (download_stores_content Demo.hex Demo.ok_response Demo.link Demo.folders
           eq_refl eq_refl Hin Hn).
Defined.

Lemma download_needs_input_folder_witness :
  status_code (Demo.ok_response Demo.link) = 200
  /\ plain_name Demo.hex = true
  /\ Demo.empty_fs !! "input" = None
  /\ download_pdf_from_url Demo.hex Demo.ok_response Demo.link Demo.empty_fs
     = Raise (FileNotFoundError (fresh_path Demo.hex)).
Proof.
  refine (conj eq_refl (conj eq_refl (conj eq_refl _))).
  exact (download_needs_input_folder Demo.hex Demo.ok_response Demo.link
           Demo.empty_fs eq_refl eq_refl eq_refl).
Defined.

Lemma no_data_still_makes_folders_witness :
  is_file Demo.upload_fs "input" = false
  /\ is_file Demo.upload_fs "output" = false
  /\ exists fs',
       pdf_to_mmd Demo.hex Demo.ok_response Demo.ocr_writes None "" Demo.upload_fs
       = Ok (no_data_message, fs')
       /\ fs' !! "input" = Some Dir
       /\ fs' !! "output" = Some Dir
       /\ forall q, q <> "input" -> q <> "output" -> fs' !! q = Demo.upload_fs !! q.
Proof.
  refine (conj eq_refl (conj eq_refl _)).
  exact (no_data_still_makes_folders Demo.hex Demo.ok_response Demo.ocr_writes
           Demo.upload_fs eq_refl eq_refl).
Defined.

Lemma markdown_path_of_download_witness :
  plain_name Demo.hex = true
  /\ markdown_path_of (fresh_path Demo.hex) = Demo.mmd_path.
Proof.
  refine (conj eq_refl _).
  exact (markdown_path_of_download Demo.hex eq_refl).
Defined.

Lemma pdf_to_mmd_download_succeeds_witness :
  Demo.link <> ""
  /\ status_code (Demo.ok_response Demo.link) = 200
  /\ plain_name Demo.hex = true
  /\ is_file Demo.empty_fs "input" = false
  /\ is_file Demo.empty_fs "output" = false
  /\ Demo.empty_fs !! fresh_path Demo.hex <> Some Dir
  /\ Demo.ocr_writes
       ["nougat"; "--out"; "output"; "pdf"; fresh_path Demo.hex; "--markdown"]
       Demo.downloaded
     = Ok (tt, Demo.converted)
  /\ Demo.converted !! Demo.mmd_path = Some (File Demo.raw_markup)
  /\ pdf_to_mmd Demo.hex Demo.ok_response Demo.ocr_writes None Demo.link Demo.empty_fs
     = Ok (switch_math_delimiters Demo.raw_markup, Demo.converted).
Proof.
  assert (Hl : Demo.link <> "") by discriminate.
  assert (Hn : Demo.empty_fs !! fresh_path Demo.hex <> Some Dir) by discriminate.
  assert (Hrun : Demo.ocr_writes
                   ["nougat"; "--out"; "output"; "pdf"; fresh_path Demo.hex; "--markdown"]
                   (<[fresh_path Demo.hex := File (content (Demo.ok_response Demo.link))]>
                      (ensure_dir "output" (ensure_dir "input" Demo.empty_fs)))
                 = Ok (tt, Demo.converted)) by (vm_compute; reflexivity).
  assert (Hraw : Demo.converted !! ("output/downloaded_paper_" +:+ Demo.hex +:+ ".mmd")
                 = Some (File Demo.raw_markup)) by (vm_compute; reflexivity).
  refine (conj Hl (conj eq_refl (conj eq_refl (conj eq_refl (conj eq_refl
           (conj Hn (conj _ (conj Hraw _)))))))).
  - vm_compute; reflexivity.
  - exact (pdf_to_mmd_download_succeeds Demo.hex Demo.ok_response Demo.ocr_writes
             Demo.link Demo.empty_fs Demo.converted Demo.raw_markup
             Hl eq_refl eq_refl eq_refl eq_refl Hn Hrun Hraw).
Defined.

Lemma folder_name_taken_witness :
  (is_file Demo.taken "input" = true \/ is_file Demo.taken "output" = true)
  /\ exists p,
       (p = "input" \/ p = "output")
       /\ is_file Demo.taken p = true
       /\ pdf_to_mmd Demo.hex Demo.ok_response Demo.ocr_writes None "" Demo.taken
          = Raise (FileExistsError p).
Proof.
  refine (conj (or_introl eq_refl) _).
  exact (folder_name_taken Demo.hex Demo.ok_response Demo.ocr_writes None ""
           Demo.taken (or_introl eq_refl)).
Defined.

Lemma upload_always_rejected_witness :
  is_file Demo.upload_fs "input" = false
  /\ is_file Demo.upload_fs "output" = false
  /\ exists_in Demo.upload_fs "not yet implemented" = false
  /\ pdf_to_mmd Demo.hex Demo.ok_response Demo.ocr_writes
       (Some "/tmp/gradio/paper.pdf") Demo.link Demo.upload_fs
     = Raise (AssertionError "File not yet implemented does not exist").
Proof.
  refine (conj eq_refl (conj eq_refl (conj eq_refl _))).
  exact (upload_always_rejected Demo.hex Demo.ok_response Demo.ocr_writes
           "/tmp/gradio/paper.pdf" Demo.link Demo.upload_fs eq_refl eq_refl eq_refl).
Defined.

Lemma missing_markup_is_named_witness :
  Demo.link <> ""
  /\ status_code (Demo.ok_response Demo.link) = 200
  /\ plain_name Demo.hex = true
  /\ is_file Demo.empty_fs "input" = false
  /\ is_file Demo.empty_fs "output" = false
  /\ Demo.empty_fs !! fresh_path Demo.hex <> Some Dir
  /\ Demo.ocr_silent
       ["nougat"; "--out"; "output"; "pdf"; fresh_path Demo.hex; "--markdown"]
       Demo.downloaded
     = Ok (tt, Demo.downloaded)
  /\ Demo.downloaded !! Demo.mmd_path = None
  /\ pdf_to_mmd Demo.hex Demo.ok_response Demo.ocr_silent None Demo.link Demo.empty_fs
     = Raise (AssertionError ("File " +:+ Demo.mmd_path +:+ " does not exist")).
Proof.
  assert (Hl : Demo.link <> "") by discriminate.
  assert (Hn : Demo.empty_fs !! fresh_path Demo.hex <> Some Dir) by discriminate.
  assert (Hrun : Demo.ocr_silent
                   ["nougat"; "--out"; "output"; "pdf"; fresh_path Demo.hex; "--markdown"]
                   (<[fresh_path Demo.hex := File (content (Demo.ok_response Demo.link))]>
                      (ensure_dir "output" (ensure_dir "input" Demo.empty_fs)))
                 = Ok (tt, Demo.downloaded)) by (vm_compute; reflexivity).
  assert (Hnone : Demo.downloaded !! ("output/downloaded_paper_" +:+ Demo.hex +:+ ".mmd")
                  = None) by (vm_compute; reflexivity).
  refine (conj Hl (conj eq_refl (conj eq_refl (conj eq_refl (conj eq_refl
           (conj Hn (conj eq_refl (conj Hnone _)))))))).
  exact (missing_markup_is_named Demo.hex Demo.ok_response Demo.ocr_silent
           Demo.link Demo.empty_fs Demo.downloaded
           Hl eq_refl eq_refl eq_refl eq_refl Hn Hrun Hnone).
Defined.

Lemma ocr_launch_error_propagates_witness :
  Demo.link <> ""
  /\ status_code (Demo.ok_response Demo.link) = 200
  /\ plain_name Demo.hex = true
  /\ is_file Demo.empty_fs "input" = false
  /\ is_file Demo.empty_fs "output" = false
  /\ Demo.empty_fs !! fresh_path Demo.hex <> Some Dir
  /\ Demo.ocr_missing
       ["nougat"; "--out"; "output"; "pdf"; fresh_path Demo.hex; "--markdown"]
       Demo.downloaded
     = Raise (SubprocessError "nougat: command not found")
  /\ pdf_to_mmd Demo.hex Demo.ok_response Demo.ocr_missing None Demo.link Demo.empty_fs
     = Raise (SubprocessError "nougat: command not found").
Proof.
  assert (Hl : Demo.link <> "") by discriminate.
  assert (Hn : Demo.empty_fs !! fresh_path Demo.hex <> Some Dir) by discriminate.
  refine (conj Hl (conj eq_refl (conj eq_refl (conj eq_refl (conj eq_refl
           (conj Hn (conj eq_refl _))))))).
  exact (ocr_launch_error_propagates Demo.hex Demo.ok_response Demo.ocr_missing
           Demo.link Demo.empty_fs _
           Hl eq_refl eq_refl eq_refl eq_refl Hn eq_refl).
Defined.
